(** * Budget estimation for travel plans: a verified model

    A shallow embedding of [budget_estimation.py] (class [BudgetEstimator])
    and the properties of its rate-table estimators, of the aggregation in
    [estimate_budget] and of the fallback in [refine_budget_with_llm].

    Conventions of the embedding.
    - A Python [int] is a [Z]; a Python [float] is an IEEE 754 binary64
      value, a [spec_float] computed with the operations of [SpecFloat]
      at precision 53 and maximal exponent 1024 (round to nearest, ties to
      even), so that [0.15 * 3600] is the product the interpreter computes.
    - Arithmetic between an [int] and a [float] converts the [int] first;
      the conversion raises [OverflowError] when the integer is too large,
      which is the only way the estimators can fail.
    - A [str] is a [string] of ASCII characters; [lower] folds [A-Z].
    - A [dict] read with [.get(key, default)] on known keys is a record of
      optional fields; the dict is empty when every field is absent.  The
      rate tables, which are dict literals, are association lists.
    - The builtin [sum] is modelled twice, since its result on floats
      depends on the interpreter: [Py.sum] adds the items from left to
      right (CPython up to 3.11), [Py.sum_compensated] carries the
      compensation of CPython 3.12 and later.  [estimate_budget] is the
      estimator under the former, [estimate_budget_with] under either.
    - [json.dumps] builds a text that is left open (a parameter); what is
      modelled is when it raises: an integer of more than 4300 decimal
      digits cannot be written (the default limit of the interpreter). *)

From Stdlib Require Import ZArith Lia Bool List Ascii String.
From Stdlib Require Import Floats.SpecFloat.
From Stdlib Require Import Sorting.Permutation.
Import ListNotations.

Local Open Scope Z_scope.
Local Open Scope string_scope.

Set Implicit Arguments.

(** ** Python runtime model *)

Module Py.

(** *** Exceptions and outcomes *)

(** An instance of (a subclass of) [Exception], with the text [str(e)]. *)
Inductive exception : Type :=
| Exception (msg : string).

Definition exc_str (e : exception) : string :=
  match e with Exception msg => msg end.

Definition OverflowError : exception :=
  Exception "int too large to convert to float".

(** The result of evaluating an expression: a value or a raised exception. *)
Inductive outcome (A : Type) : Type :=
| Ok (a : A)
| Raise (e : exception).
Arguments Ok {A} a.
Arguments Raise {A} e.

Definition bind {A B : Type} (m : outcome A) (k : A -> outcome B) : outcome B :=
  match m with
  | Ok a => k a
  | Raise e => Raise e
  end.

(** What a call leaves behind: the lines it printed and its outcome. *)
Definition io (A : Type) : Type := (list string * outcome A)%type.

(** [try: return body / except Exception as e: handler e], for a body
    that prints nothing. *)
Definition try_except {A : Type} (body : outcome A) (handler : exception -> io A)
  : io A :=
  match body with
  | Ok a => ([], Ok a)
  | Raise e => handler e
  end.

(** [print(line)] followed by [return a]. *)
Definition print_then_return {A : Type} (line : string) (a : A) : io A :=
  ([line], Ok a).

(** *** Strings *)

Definition lower_char (c : ascii) : ascii :=
  let n := nat_of_ascii c in
  if (Nat.leb 65 n && Nat.leb n 90)%bool then ascii_of_nat (n + 32) else c.

(** [s.lower()] *)
Fixpoint lower (s : string) : string :=
  match s with
  | EmptyString => EmptyString
  | String c s' => String (lower_char c) (lower s')
  end.

(** [s.startswith(w)] *)
Fixpoint startswith (w s : string) : bool :=
  match w with
  | EmptyString => true
  | String a w' =>
      match s with
      | EmptyString => false
      | String b s' => (Ascii.eqb a b && startswith w' s')%bool
      end
  end.

(** [w in s] for strings: [w] occurs in [s] as a contiguous run, that is
    some suffix of [s] starts with [w]. *)
Fixpoint contains (w s : string) : bool :=
  (startswith w s ||
   match s with
   | EmptyString => false
   | String _ s' => contains w s'
   end)%bool.

(** [any(p(x) for x in xs)] *)
Definition any {A : Type} (p : A -> bool) (xs : list A) : bool := existsb p xs.

(** *** Dictionaries written as literals *)

Definition dict (V : Type) : Type := list (string * V).

Fixpoint lookup {V : Type} (d : dict V) (k : string) : option V :=
  match d with
  | [] => None
  | (k', v) :: d' => if String.eqb k' k then Some v else lookup d' k
  end.

(** [d.get(k, dflt)] *)
Definition get {V : Type} (d : dict V) (k : string) (dflt : V) : V :=
  match lookup d k with
  | Some v => v
  | None => dflt
  end.

(** [o.get(field, dflt)] on a record of optional fields. *)
Definition get_field {V : Type} (field : option V) (dflt : V) : V :=
  match field with
  | Some v => v
  | None => dflt
  end.

(** *** Numbers *)

Definition prec : Z := 53.
Definition emax : Z := 1024.

Definition float : Type := spec_float.

Definition fmul : float -> float -> float := SFmul prec emax.
Definition fadd : float -> float -> float := SFadd prec emax.
Definition fdiv : float -> float -> float := SFdiv prec emax.

(** The double nearest to an integer (an infinity beyond the range). *)
Definition Z2SF (z : Z) : float := binary_normalize prec emax z 0 false.

(** The decimal literal [n / 10^k], read as the interpreter reads it:
    the double nearest to that rational.  Both [n] and [10^k] are below
    [2^53] wherever it is used, so the correctly rounded quotient of
    their exact doubles is that double. *)
Definition decimal (n : Z) (k : Z) : float := fdiv (Z2SF n) (Z2SF (10 ^ k)).

(** [f] is a double with a full mantissa of 53 bits, and no more than
    half a unit in its last place away from the rational [n / 10^k]. *)
Definition rounds_decimal (n k : Z) (f : float) : bool :=
  match f with
  | S754_zero _ => Z.eqb n 0
  | S754_finite false m e =>
      (Z.eqb (Zpos (digits2_pos m)) prec
       && Z.ltb e 0
       && Z.leb (2 * Z.abs (Zpos m * 10 ^ k - n * 2 ^ (- e))) (10 ^ k))%bool
  | _ => false
  end.

Definition is_infinity (f : float) : bool :=
  match f with
  | S754_infinity _ => true
  | _ => false
  end.

(** [float(z)] *)
Definition float_of_int (z : Z) : outcome float :=
  let f := Z2SF z in
  if is_infinity f then Raise OverflowError else Ok f.

Inductive num : Type :=
| PyInt (z : Z)
| PyFloat (f : float).

Definition to_float (x : num) : outcome float :=
  match x with
  | PyInt z => float_of_int z
  | PyFloat f => Ok f
  end.

(** [x * y] *)
Definition mul (x y : num) : outcome num :=
  match x, y with
  | PyInt a, PyInt b => Ok (PyInt (a * b))
  | _, _ =>
      bind (to_float x) (fun a =>
      bind (to_float y) (fun b =>
      Ok (PyFloat (fmul a b))))
  end.

(** [x + y] *)
Definition add (x y : num) : outcome num :=
  match x, y with
  | PyInt a, PyInt b => Ok (PyInt (a + b))
  | _, _ =>
      bind (to_float x) (fun a =>
      bind (to_float y) (fun b =>
      Ok (PyFloat (fadd a b))))
  end.

(** [sum(xs)]: the items added from left to right to the integer 0, each
    addition rounded as [+] rounds it.  (The compensated summation with
    which some interpreters sharpen [sum] over floats is not modelled.) *)
Definition sum (xs : list num) : outcome num :=
  fold_left (fun acc x => bind acc (fun a => add a x)) xs (Ok (PyInt 0)).

(** [0 <= x], with the exact comparison of the interpreter (false on NaN). *)
Definition nonneg (x : num) : bool :=
  match x with
  | PyInt z => Z.leb 0 z
  | PyFloat f => SFleb (S754_zero false) f
  end.

(** [f == z] for a float and an integer: the comparison is exact, the
    integer is not rounded to a float first. *)
Definition float_eq_int (f : float) (z : Z) : bool :=
  match f with
  | S754_zero _ => Z.eqb z 0
  | S754_finite s m e =>
      if Z.leb 0 e then Z.eqb z (cond_Zopp s (Zpos m) * 2 ^ e)
      else Z.eqb (z * 2 ^ (- e)) (cond_Zopp s (Zpos m))
  | _ => false
  end.

(** [x == y] *)
Definition eq (x y : num) : bool :=
  match x, y with
  | PyInt a, PyInt b => Z.eqb a b
  | PyFloat f, PyFloat g => SFeqb f g
  | PyInt a, PyFloat f => float_eq_int f a
  | PyFloat f, PyInt a => float_eq_int f a
  end.

(** *** The builtin [sum] of CPython 3.12 and later

    [sum] keeps an integer total in a C [long] while the items are
    integers; from the first float on it keeps a double [f] and a
    compensation [c] that collects what each float addition rounded away
    (Neumaier's variant of Kahan's summation), and adds [c] at the end.
    Integers met in that phase are added to [f] without compensation.
    An integer outside the range of a [long] sends the rest of the list
    to the plain loop [result = result + item]. *)

Definition fsub : float -> float -> float := SFsub prec emax.

(** The range of a C [long], 64 bits wide. *)
Definition LONG_MAX : Z := 2 ^ 63 - 1.
Definition LONG_MIN : Z := - 2 ^ 63.

Definition fits_long (z : Z) : bool := (Z.leb LONG_MIN z && Z.leb z LONG_MAX)%bool.

(** The plain loop: [result = result + item] over the items that remain. *)
Definition sum_from (result : num) (xs : list num) : outcome num :=
  fold_left (fun acc x => bind acc (fun a => add a x)) xs (Ok result).

(** [c && isfinite(c)] *)
Definition nonzero_finite (c : float) : bool :=
  match c with
  | S754_finite _ _ _ => true
  | _ => false
  end.

(** The float phase, from the double [f] and the compensation [c]. *)
Fixpoint sum_floats (f c : float) (xs : list num) : outcome num :=
  match xs with
  | [] => Ok (PyFloat (if nonzero_finite c then fadd f c else f))
  | PyFloat x :: xs' =>
      let t := fadd f x in
      let c' :=
        if SFleb (SFabs x) (SFabs f) then fadd c (fadd (fsub f t) x)
        else fadd c (fadd (fsub x t) f) in
      sum_floats t c' xs'
  | PyInt z :: xs' =>
      if fits_long z then sum_floats (fadd f (Z2SF z)) c xs'
      else bind (add (PyFloat f) (PyInt z)) (fun result => sum_from result xs')
  end.

(** The integer phase, from the total [i], which fits a [long]. *)
Fixpoint sum_ints (i : Z) (xs : list num) : outcome num :=
  match xs with
  | [] => Ok (PyInt i)
  | PyInt b :: xs' =>
      if (fits_long b && fits_long (i + b))%bool then sum_ints (i + b) xs'
      else sum_from (PyInt (i + b)) xs'
  | PyFloat x :: xs' =>
      bind (add (PyInt i) (PyFloat x)) (fun result =>
        match result with
        | PyFloat f => sum_floats f (S754_zero false) xs'
        | PyInt _ => sum_from result xs'
        end)
  end.

(** [sum(xs)] as CPython 3.12 and later compute it. *)
Definition sum_compensated (xs : list num) : outcome num := sum_ints 0 xs.

(** *** Writing an integer as text *)

(** The longest integer, in decimal digits, that [str], [repr] and
    [json.dumps] accept to write (the default of the interpreter). *)
Definition int_max_str_digits : Z := 4300.

Definition int_str_error : exception :=
  Exception
    "Exceeds the limit (4300 digits) for integer string conversion; use sys.set_int_max_str_digits() to increase the limit".

(** The integer has at most [int_max_str_digits] digits. *)
Definition int_writable (z : Z) : bool := Z.ltb (Z.abs z) (10 ^ int_max_str_digits).

(** A float is always written ([NaN] and [Infinity] included). *)
Definition num_writable (x : num) : bool :=
  match x with
  | PyInt z => int_writable z
  | PyFloat _ => true
  end.

End Py.


Notation "x <- m ;; k" := (Py.bind m (fun x => k))
  (at level 61, m at next level, right associativity).

(** ** The estimator *)

Module BudgetEstimator.
Import Py.

(** *** The travel plan and the breakdown *)

(** The ["accommodation"] dict: keys ["type"] and ["quality"]. *)
Record Accommodation : Type := {
  acc_type : option string;
  acc_quality : option string
}.

(** The ["transportation"] dict: keys ["type"], ["distance"], ["quality"]. *)
Record Transportation : Type := {
  tr_type : option string;
  tr_distance : option num;
  tr_quality : option string
}.

(** One item of ["activities"]: keys ["type"], ["duration"], ["quality"]. *)
Record Activity : Type := {
  act_type : option string;
  act_duration : option num;
  act_quality : option string
}.

Record TravelPlan : Type := {
  destination : option string;
  duration : option Z;
  activities : option (list Activity);
  accommodation : option Accommodation;
  transportation : option Transportation
}.

(** The dict [{}] at each of the two record types, and its truth value. *)
Definition no_accommodation : Accommodation :=
  {| acc_type := None; acc_quality := None |}.

Definition no_transportation : Transportation :=
  {| tr_type := None; tr_distance := None; tr_quality := None |}.

Definition is_none {A : Type} (o : option A) : bool :=
  match o with
  | None => true
  | Some _ => false
  end.

(** [not accommodation] *)
Definition not_accommodation (a : Accommodation) : bool :=
  is_none (acc_type a) && is_none (acc_quality a).

(** [not transportation] *)
Definition not_transportation (t : Transportation) : bool :=
  is_none (tr_type t) && is_none (tr_distance t) && is_none (tr_quality t).

(** [not activities] *)
Definition not_activities (l : list Activity) : bool :=
  match l with
  | [] => true
  | _ :: _ => false
  end.

(** The dict [budget_breakdown], with its six fixed keys. *)
Record BudgetBreakdown : Type := {
  bb_accommodation : num;
  bb_transportation : num;
  bb_activities : num;
  bb_food : num;
  bb_miscellaneous : num;
  bb_total : num
}.

(** [budget_breakdown[key] = v], one function per key. *)
Definition set_accommodation (v : num) (b : BudgetBreakdown) : BudgetBreakdown :=
  {| bb_accommodation := v; bb_transportation := bb_transportation b;
     bb_activities := bb_activities b; bb_food := bb_food b;
     bb_miscellaneous := bb_miscellaneous b; bb_total := bb_total b |}.

Definition set_transportation (v : num) (b : BudgetBreakdown) : BudgetBreakdown :=
  {| bb_accommodation := bb_accommodation b; bb_transportation := v;
     bb_activities := bb_activities b; bb_food := bb_food b;
     bb_miscellaneous := bb_miscellaneous b; bb_total := bb_total b |}.

Definition set_activities (v : num) (b : BudgetBreakdown) : BudgetBreakdown :=
  {| bb_accommodation := bb_accommodation b; bb_transportation := bb_transportation b;
     bb_activities := v; bb_food := bb_food b;
     bb_miscellaneous := bb_miscellaneous b; bb_total := bb_total b |}.

Definition set_food (v : num) (b : BudgetBreakdown) : BudgetBreakdown :=
  {| bb_accommodation := bb_accommodation b; bb_transportation := bb_transportation b;
     bb_activities := bb_activities b; bb_food := v;
     bb_miscellaneous := bb_miscellaneous b; bb_total := bb_total b |}.

Definition set_miscellaneous (v : num) (b : BudgetBreakdown) : BudgetBreakdown :=
  {| bb_accommodation := bb_accommodation b; bb_transportation := bb_transportation b;
     bb_activities := bb_activities b; bb_food := bb_food b;
     bb_miscellaneous := v; bb_total := bb_total b |}.

Definition set_total (v : num) (b : BudgetBreakdown) : BudgetBreakdown :=
  {| bb_accommodation := bb_accommodation b; bb_transportation := bb_transportation b;
     bb_activities := bb_activities b; bb_food := bb_food b;
     bb_miscellaneous := bb_miscellaneous b; bb_total := v |}.

(** *** Rate tables *)

(** Average nightly rates by accommodation type and quality. *)
Definition accommodation_rates : dict (dict Z) :=
  [ ("hotel", [("budget", 50); ("medium", 100); ("luxury", 200)]);
    ("hostel", [("budget", 20); ("medium", 30); ("luxury", 50)]);
    ("apartment", [("budget", 70); ("medium", 120); ("luxury", 250)]);
    ("vacation_rental", [("budget", 80); ("medium", 150); ("luxury", 300)]);
    ("resort", [("budget", 100); ("medium", 200); ("luxury", 400)]) ].

(** Cost per mile or kilometre by transportation type and quality. *)
Definition transportation_rates : dict (dict float) :=
  [ ("flight", [("economy", decimal 15 2); ("business", decimal 30 2); ("first", decimal 50 2)]);
    ("train", [("economy", decimal 10 2); ("business", decimal 20 2); ("first", decimal 30 2)]);
    ("bus", [("economy", decimal 5 2); ("business", decimal 8 2); ("first", decimal 12 2)]);
    ("car", [("economy", decimal 25 2); ("business", decimal 35 2); ("first", decimal 50 2)]) ].

(** Average cost by activity type and quality. *)
Definition activity_rates : dict (dict Z) :=
  [ ("sightseeing", [("free", 0); ("standard", 15); ("premium", 30)]);
    ("museum", [("free", 0); ("standard", 20); ("premium", 40)]);
    ("adventure", [("standard", 50); ("premium", 100)]);
    ("cultural", [("standard", 25); ("premium", 50)]);
    ("entertainment", [("standard", 30); ("premium", 60)]);
    ("shopping", [("standard", 50); ("premium", 100)]);
    ("dining", [("standard", 40); ("premium", 80)]) ].

(** *** The five estimators *)

Definition _estimate_accommodation_cost (accommodation : Accommodation) (duration : Z)
  : outcome num :=
  if not_accommodation accommodation then Ok (PyFloat (decimal 0 1))
  else
    let accommodation_type := lower (get_field (acc_type accommodation) "hotel") in
    let quality := lower (get_field (acc_quality accommodation) "medium") in
    let rates := accommodation_rates in
    let default_rate := get rates "hotel" [("medium", 100)] in
    let rate := get (get rates accommodation_type default_rate) quality 100 in
    mul (PyInt rate) (PyInt duration).

Definition _estimate_transportation_cost (transportation : Transportation)
  : outcome num :=
  if not_transportation transportation then Ok (PyFloat (decimal 0 1))
  else
    let transportation_type := lower (get_field (tr_type transportation) "flight") in
    let distance := get_field (tr_distance transportation) (PyInt 0) in
    let quality := lower (get_field (tr_quality transportation) "economy") in
    let rates := transportation_rates in
    let default_rate := get rates "flight" [("economy", decimal 15 2)] in
    let rate := get (get rates transportation_type default_rate) quality (decimal 15 2) in
    mul (PyFloat rate) distance.

(** The body of the loop over the activities: the rate of one activity.
    The loop reads the activity's duration and never uses it. *)
Definition activity_rate (activity : Activity) : Z :=
  let activity_type := lower (get_field (act_type activity) "sightseeing") in
  let duration := get_field (act_duration activity) (PyInt 2) in
  let quality := lower (get_field (act_quality activity) "standard") in
  let rates := activity_rates in
  let default_rate := get rates "sightseeing" [("standard", 15)] in
  let rate := get (get rates activity_type default_rate) quality 15 in
  rate.

Definition _estimate_activity_cost (activities : list Activity) : outcome num :=
  if not_activities activities then Ok (PyFloat (decimal 0 1))
  else
    fold_left
      (fun total_cost activity =>
         acc <- total_cost ;;
         add acc (PyInt (activity_rate activity)))
      activities
      (Ok (PyFloat (decimal 0 1))).

Definition _estimate_food_cost (destination : string) (duration : Z) : outcome num :=
  let destination_factor :=
    if any (fun word => contains word (lower destination))
           ["europe"; "usa"; "canada"; "australia"]
    then decimal 15 1
    else if any (fun word => contains word (lower destination))
                ["asia"; "south america"; "africa"]
    then decimal 7 1
    else decimal 10 1 in
  daily_food_cost <- mul (PyInt 40) (PyFloat destination_factor) ;;
  mul daily_food_cost (PyInt duration).

Definition _estimate_miscellaneous_cost (destination : string) (duration : Z)
  : outcome num :=
  mul (PyInt 20) (PyInt duration).

(** *** Aggregation *)

(** [estimate_budget], with the builtin [sum] of the interpreter that runs
    it as a parameter. *)
Definition estimate_budget_with (builtin_sum : list num -> outcome num)
  (travel_plan : TravelPlan) : outcome BudgetBreakdown :=
  let destination := get_field (destination travel_plan) "" in
  let duration := get_field (duration travel_plan) 0 in
  let activities := get_field (activities travel_plan) [] in
  let accommodation := get_field (accommodation travel_plan) no_accommodation in
  let transportation := get_field (transportation travel_plan) no_transportation in
  let budget_breakdown :=
    {| bb_accommodation := PyInt 0; bb_transportation := PyInt 0;
       bb_activities := PyInt 0; bb_food := PyInt 0;
       bb_miscellaneous := PyInt 0; bb_total := PyInt 0 |} in
  v <- _estimate_accommodation_cost accommodation duration ;;
  let budget_breakdown := set_accommodation v budget_breakdown in
  v <- _estimate_transportation_cost transportation ;;
  let budget_breakdown := set_transportation v budget_breakdown in
  v <- _estimate_activity_cost activities ;;
  let budget_breakdown := set_activities v budget_breakdown in
  v <- _estimate_food_cost destination duration ;;
  let budget_breakdown := set_food v budget_breakdown in
  v <- _estimate_miscellaneous_cost destination duration ;;
  let budget_breakdown := set_miscellaneous v budget_breakdown in
  v <- builtin_sum [ bb_accommodation budget_breakdown;
                     bb_transportation budget_breakdown;
                     bb_activities budget_breakdown;
                     bb_food budget_breakdown;
                     bb_miscellaneous budget_breakdown ] ;;
  let budget_breakdown := set_total v budget_breakdown in
  Ok budget_breakdown.

(** [estimate_budget] where [sum] adds from left to right. *)
Definition estimate_budget (travel_plan : TravelPlan) : outcome BudgetBreakdown :=
  estimate_budget_with sum travel_plan.

(** *** Refinement by the language model *)

(** What [refine_budget_with_llm] hands back: the object [json.loads]
    built from the model's answer, or the dict it was given. *)
Inductive Refinement (J : Type) : Type :=
| Refined (parsed : J)
| Unrefined (initial_budget : BudgetBreakdown).
Arguments Refined {J} parsed.
Arguments Unrefined {J} initial_budget.

(** [json.dumps] can write every integer of the plan: the duration, the
    distance and the durations of the activities, where present. *)
Definition option_writable (o : option num) : bool :=
  match o with
  | Some x => num_writable x
  | None => true
  end.

Definition plan_writable (p : TravelPlan) : bool :=
  match duration p with
  | Some z => int_writable z
  | None => true
  end
  && match transportation p with
     | Some t => option_writable (tr_distance t)
     | None => true
     end
  && match activities p with
     | Some l => forallb (fun a => option_writable (act_duration a)) l
     | None => true
     end.

(** [json.dumps] can write every amount of the breakdown. *)
Definition budget_writable (b : BudgetBreakdown) : bool :=
  num_writable (bb_accommodation b) && num_writable (bb_transportation b)
  && num_writable (bb_activities b) && num_writable (bb_food b)
  && num_writable (bb_miscellaneous b) && num_writable (bb_total b).

Section Refine.
(** The collaborators: [call_llm] of [utils.llm_utils], which may raise;
    [json.loads], which may raise; and the text that [json.dumps] builds
    for a plan and for a breakdown when it can write them. *)
Variable J : Type.
Variable call_llm : string -> outcome string.
Variable json_loads : string -> outcome J.
Variable json_text_plan : TravelPlan -> string.
Variable json_text_budget : BudgetBreakdown -> string.

(** [json.dumps(travel_plan, indent=2)] *)
Definition json_dumps_plan (travel_plan : TravelPlan) : outcome string :=
  if plan_writable travel_plan then Ok (json_text_plan travel_plan)
  else Raise int_str_error.

(** [json.dumps(initial_budget, indent=2)] *)
Definition json_dumps_budget (initial_budget : BudgetBreakdown) : outcome string :=
  if budget_writable initial_budget then Ok (json_text_budget initial_budget)
  else Raise int_str_error.

(** The text of the f-string around the two dumps. *)
Definition refinement_prompt (plan_text budget_text : string) : string :=
  "
        Given the following travel plan:
        " ++ plan_text ++ "

        And the initial budget estimation:
        " ++ budget_text ++ "

        Please provide a more accurate budget estimation considering:
        1. Current market prices for the destination
        2. Seasonal variations
        3. Specific accommodation and transportation details
        4. Activity costs
        5. Food and miscellaneous expenses

        Return the refined budget in the same JSON format.
        ".

(** The prompt is built first, outside the [try]: what [json.dumps]
    raises reaches the caller.  Only the call of the model and the
    parsing of its answer are inside. *)
Definition refine_budget_with_llm (travel_plan : TravelPlan)
  (initial_budget : BudgetBreakdown) : io (Refinement J) :=
  match
    plan_text <- json_dumps_plan travel_plan ;;
    budget_text <- json_dumps_budget initial_budget ;;
    Ok (refinement_prompt plan_text budget_text)
  with
  | Raise e => ([], Raise e)
  | Ok prompt =>
      try_except
        (refined_budget <- call_llm prompt ;;
         parsed <- json_loads refined_budget ;;
         Ok (Refined parsed))
        (fun e =>
           print_then_return
             ("Error refining budget with LLM: " ++ exc_str e)
             (Unrefined initial_budget))
  end.
End Refine.

(** *** Price lookup *)

(** The placeholder for the scraping of booking sites: the same three
    prices for every destination and accommodation type. *)
Definition scrape_prices (destination : string) (accommodation_type : string)
  : dict Z :=
  let prices := [("budget", 60); ("medium", 120); ("luxury", 250)] in
  prices.

End BudgetEstimator.

(** ** Vocabulary of the specification *)

Module Spec.
Import Py BudgetEstimator.

(** The two-level fallback of the rate tables, in the specification's
    words: an unknown type resolves to the table of [fallback_type], and
    a quality unknown in the resolved table to [fallback_rate]. *)
Definition resolved_table {V : Type} (rates : dict (dict V)) (fallback_type : string)
  (type : string) : option (dict V) :=
  match lookup rates type with
  | Some table => Some table
  | None => lookup rates fallback_type
  end.

Definition rate {V : Type} (rates : dict (dict V)) (fallback_type : string)
  (fallback_rate : V) (type quality : string) : V :=
  match resolved_table rates fallback_type type with
  | Some table =>
      match lookup table quality with
      | Some r => r
      | None => fallback_rate
      end
  | None => fallback_rate
  end.

(** [w] occurs in [s]. *)
Definition Substring (w s : string) : Prop :=
  exists pre post : string, s = pre ++ w ++ post.

(** The lower-cased destination contains one of the keywords. *)
Definition mentions (keywords : list string) (destination : string) : Prop :=
  exists w : string, In w keywords /\ Substring w (lower destination).

Definition expensive_regions : list string := ["europe"; "usa"; "canada"; "australia"].
Definition cheap_regions : list string := ["asia"; "south america"; "africa"].

(** [40 * factor * duration], evaluated as the interpreter does. *)
Definition food_formula (factor : float) (duration : Z) : outcome num :=
  daily <- mul (PyInt 40) (PyFloat factor) ;;
  mul daily (PyInt duration).

(** Two activity records that differ at most in their duration. *)
Definition same_but_duration (a b : Activity) : Prop :=
  act_type a = act_type b /\ act_quality a = act_quality b.

(** [a + t + v + f + m], evaluated as the interpreter does. *)
Definition sum_of_categories (b : BudgetBreakdown) : outcome num :=
  s <- add (bb_accommodation b) (bb_transportation b) ;;
  s <- add s (bb_activities b) ;;
  s <- add s (bb_food b) ;;
  add s (bb_miscellaneous b).

Definition is_nan (x : num) : bool :=
  match x with
  | PyFloat S754_nan => true
  | _ => false
  end.

(** Every amount of the breakdown is non-negative. *)
Definition all_nonneg (b : BudgetBreakdown) : bool :=
  nonneg (bb_accommodation b) && nonneg (bb_transportation b) &&
  nonneg (bb_activities b) && nonneg (bb_food b) &&
  nonneg (bb_miscellaneous b) && nonneg (bb_total b).

(** Every amount of the breakdown compares equal to the integer 0. *)
Definition all_zero (b : BudgetBreakdown) : bool :=
  eq (bb_accommodation b) (PyInt 0) && eq (bb_transportation b) (PyInt 0) &&
  eq (bb_activities b) (PyInt 0) && eq (bb_food b) (PyInt 0) &&
  eq (bb_miscellaneous b) (PyInt 0) && eq (bb_total b) (PyInt 0).

(** The plan of the example in [main]. *)
Definition paris_plan : TravelPlan :=
  {| destination := Some "Paris, France";
     duration := Some 7;
     accommodation :=
       Some {| acc_type := Some "hotel"; acc_quality := Some "medium" |};
     transportation :=
       Some {| tr_type := Some "flight"; tr_distance := Some (PyInt 3600);
               tr_quality := Some "economy" |};
     activities :=
       Some [ {| act_type := Some "museum"; act_duration := None;
                 act_quality := Some "standard" |};
              {| act_type := Some "sightseeing"; act_duration := None;
                 act_quality := Some "standard" |};
              {| act_type := Some "dining"; act_duration := None;
                 act_quality := Some "premium" |} ] |}.

(** The plan [{}]. *)
Definition empty_plan : TravelPlan :=
  {| destination := None; duration := None; activities := None;
     accommodation := None; transportation := None |}.

(** The breakdown of the plan of [main]. *)
Definition paris_budget : BudgetBreakdown :=
  {| bb_accommodation := PyInt 700;
     bb_transportation := PyFloat (Z2SF 540);
     bb_activities := PyFloat (Z2SF 115);
     bb_food := PyFloat (Z2SF 280);
     bb_miscellaneous := PyInt 140;
     bb_total := PyFloat (Z2SF 1775) |}.

(** One night, three activities and a bus ride of one kilometre. *)
Definition bus_plan : TravelPlan :=
  {| destination := None;
     duration := Some 1;
     activities := activities paris_plan;
     accommodation := None;
     transportation :=
       Some {| tr_type := Some "bus"; tr_distance := Some (PyInt 1);
               tr_quality := Some "business" |} |}.

(** One night and a distance that is not a number. *)
Definition nan_distance_plan : TravelPlan :=
  {| destination := None;
     duration := Some 1;
     activities := None;
     accommodation := None;
     transportation :=
       Some {| tr_type := None; tr_distance := Some (PyFloat S754_nan);
               tr_quality := None |} |}.

(** [b["total"] == b["accommodation"] + b["transportation"] +
    b["activities"] + b["food"] + b["miscellaneous"]] *)
Definition total_equals_sum (b : BudgetBreakdown) : bool :=
  match sum_of_categories b with
  | Ok v => eq (bb_total b) v
  | Raise _ => false
  end.

(** The distance the transportation estimator reads from a plan. *)
Definition plan_distance (p : TravelPlan) : num :=
  get_field (tr_distance (get_field (transportation p) no_transportation)) (PyInt 0).

(** The duration the estimators read from a plan. *)
Definition plan_duration (p : TravelPlan) : Z :=
  get_field (duration p) 0.

(** A plan that only gives a duration. *)
Definition stay_of (nights : Z) : TravelPlan :=
  {| destination := None; duration := Some nights; activities := None;
     accommodation := None; transportation := None |}.

(** Zero of either sign, a positive finite double or plus infinity with
    sign [s = false]; their negatives with [s = true]. *)
Definition signed (s : bool) (f : float) : Prop :=
  f = S754_zero s \/ f = S754_infinity s
  \/ exists (m : positive) (e : Z), f = S754_finite s m e.

(** Every rate of a table satisfies [P]. *)
Definition all_rates {V : Type} (P : V -> Prop) (rates : dict (dict V)) : Prop :=
  Forall (fun row => Forall (fun entry => P (snd entry)) (snd row)) rates.

(** A positive finite double. *)
Definition positive_finite (f : float) : Prop :=
  exists (m : positive) (e : Z), f = S754_finite false m e.

End Spec.

(** ** Vocabulary of the further properties *)

Module Exact.
Import Py BudgetEstimator Spec.

(** The sum of the rates of the activities, as an integer. *)
Definition rates_total (l : list Activity) : Z :=
  fold_right (fun activity s => activity_rate activity + s) 0 l.

(** The daily food rate [40 * factor] as an integer: 60, 28 or 40. *)
Definition daily_rate (destination : string) : Z :=
  if any (fun word => contains word (lower destination)) expensive_regions then 60
  else if any (fun word => contains word (lower destination)) cheap_regions then 28
  else 40.

(** The nightly rate a record resolves to, after its defaults. *)
Definition nightly_rate (a : Accommodation) : Z :=
  rate accommodation_rates "hotel" 100
    (lower (get_field (acc_type a) "hotel"))
    (lower (get_field (acc_quality a) "medium")).

(** The accommodation amount as an integer: nothing for the empty record. *)
Definition accommodation_amount (a : Accommodation) (nights : Z) : Z :=
  if not_accommodation a then 0 else nightly_rate a * nights.

(** The breakdown of a plan without transportation, computed in integers
    and only then written as the numbers the estimator returns. *)
Definition integer_breakdown (p : TravelPlan) : BudgetBreakdown :=
  let nights := plan_duration p in
  let a := get_field (accommodation p) no_accommodation in
  let l := get_field (activities p) [] in
  let daily := daily_rate (get_field (destination p) "") in
  {| bb_accommodation :=
       if not_accommodation a then PyFloat (S754_zero false)
       else PyInt (nightly_rate a * nights);
     bb_transportation := PyFloat (S754_zero false);
     bb_activities := PyFloat (Z2SF (rates_total l));
     bb_food := PyFloat (Z2SF (daily * nights));
     bb_miscellaneous := PyInt (20 * nights);
     bb_total :=
       PyFloat (Z2SF (accommodation_amount a nights + rates_total l
                      + daily * nights + 20 * nights)) |}.

(** A plan with every type, quality and destination in lower case. *)
Definition lower_accommodation (a : Accommodation) : Accommodation :=
  {| acc_type := option_map lower (acc_type a);
     acc_quality := option_map lower (acc_quality a) |}.

Definition lower_transportation (t : Transportation) : Transportation :=
  {| tr_type := option_map lower (tr_type t);
     tr_distance := tr_distance t;
     tr_quality := option_map lower (tr_quality t) |}.

Definition lower_activity (a : Activity) : Activity :=
  {| act_type := option_map lower (act_type a);
     act_duration := act_duration a;
     act_quality := option_map lower (act_quality a) |}.

Definition lower_plan (p : TravelPlan) : TravelPlan :=
  {| destination := option_map lower (destination p);
     duration := duration p;
     activities := option_map (map lower_activity) (activities p);
     accommodation := option_map lower_accommodation (accommodation p);
     transportation := option_map lower_transportation (transportation p) |}.

End Exact.

(** ** Properties *)

Import Py BudgetEstimator Spec.

(** *** Strings *)

Lemma startswith_iff_append (w s : string) :
  startswith w s = true <-> exists post : string, s = w ++ post.
Proof.
  revert s; induction w as [|a w IH]; intros s; simpl.
  - split; [intros _; now exists s | reflexivity].
  - destruct s as [|b s].
    + split; [discriminate | intros [post H]; discriminate H].
    + rewrite andb_true_iff, Ascii.eqb_eq, IH. split.
      * intros [-> [post ->]]. now exists post.
      * intros [post H]. injection H as -> ->. split; [reflexivity | now exists post].
Qed.

Lemma contains_iff_Substring (w s : string) :
  contains w s = true <-> Substring w s.
Proof.
  induction s as [|c s IH]; simpl; rewrite orb_true_iff, startswith_iff_append.
  - split.
    + intros [[post H]|H]; [|discriminate]. now exists "", post.
    + intros [[|c pre] [post H]]; [left; now exists post | discriminate H].
  - rewrite IH. split.
    + intros [[post H]|[pre [post H]]].
      * now exists "", post.
      * exists (String c pre), post. simpl. now rewrite H.
    + intros [[|c' pre] [post H]].
      * left. now exists post.
      * right. injection H as _ H. now exists pre, post.
Qed.

Lemma any_contains_iff_mentions (keywords : list string) (destination : string) :
  any (fun word => contains word (lower destination)) keywords = true
  <-> mentions keywords destination.
Proof.
  unfold any, mentions. rewrite existsb_exists.
  split; intros [w [Hin H]]; exists w; split; trivial;
    now apply contains_iff_Substring.
Qed.

Lemma any_contains_false_iff (keywords : list string) (destination : string) :
  any (fun word => contains word (lower destination)) keywords = false
  <-> ~ mentions keywords destination.
Proof.
  rewrite <- any_contains_iff_mentions.
  destruct (any _ keywords); split; intros H; easy.
Qed.

Example lower_folds_letters_only :
  lower "Paris, FRANCE [A-Z] @`{}" = "paris, france [a-z] @`{}".
Proof. reflexivity. Qed.

(** [lower] is idempotent: a case-folded key folds to itself. *)
Lemma lower_char_idempotent (c : ascii) : lower_char (lower_char c) = lower_char c.
Proof.
  destruct c as [[] [] [] [] [] [] [] []]; reflexivity.
Qed.

Lemma lower_idempotent (s : string) : lower (lower s) = lower s.
Proof.
  induction s as [|c s IH]; simpl; [reflexivity|].
  now rewrite lower_char_idempotent, IH.
Qed.

(** *** Literals

    The doubles behind the decimal literals of the source, as sign,
    mantissa and exponent. *)

Lemma literal_values :
  decimal 0 1 = S754_zero false /\
  decimal 10 1 = S754_finite false 4503599627370496 (-52) /\
  decimal 15 1 = S754_finite false 6755399441055744 (-52) /\
  decimal 7 1 = S754_finite false 6305039478318694 (-53) /\
  decimal 15 2 = S754_finite false 5404319552844595 (-55) /\
  decimal 30 2 = S754_finite false 5404319552844595 (-54) /\
  decimal 50 2 = S754_finite false 4503599627370496 (-53) /\
  decimal 10 2 = S754_finite false 7205759403792794 (-56) /\
  decimal 20 2 = S754_finite false 7205759403792794 (-55) /\
  decimal 5 2 = S754_finite false 7205759403792794 (-57) /\
  decimal 8 2 = S754_finite false 5764607523034235 (-56) /\
  decimal 12 2 = S754_finite false 8646911284551352 (-56) /\
  decimal 25 2 = S754_finite false 4503599627370496 (-54) /\
  decimal 35 2 = S754_finite false 6305039478318694 (-54).
Proof. vm_compute. repeat split. Qed.

(** Each of them is the double nearest to the decimal it stands for. *)
Lemma literals_correctly_rounded :
  forallb (fun nk => rounds_decimal (fst nk) (snd nk) (decimal (fst nk) (snd nk)))
    [ (0, 1); (10, 1); (15, 1); (7, 1); (15, 2); (30, 2); (50, 2); (10, 2);
      (20, 2); (5, 2); (8, 2); (12, 2); (25, 2); (35, 2) ] = true.
Proof. vm_compute. reflexivity. Qed.

(** *** Rate lookups *)

(** The nested [.get] of the estimators is the two-level fallback, as
    soon as the fallback type has a table. *)
Lemma nested_get_is_rate {V : Type} (rates : dict (dict V)) (fallback_type : string)
  (unused : dict V) (fallback_rate : V) (type quality : string) (table : dict V) :
  lookup rates fallback_type = Some table ->
  get (get rates type (get rates fallback_type unused)) quality fallback_rate
  = rate rates fallback_type fallback_rate type quality.
Proof.
  intros H. unfold rate, resolved_table, get. rewrite H.
  destruct (lookup rates type); reflexivity.
Qed.

Lemma accommodation_cost_nonempty (a : Accommodation) (duration : Z) :
  not_accommodation a = false ->
  _estimate_accommodation_cost a duration
  = Ok (PyInt (rate accommodation_rates "hotel" 100
                 (lower (get_field (acc_type a) "hotel"))
                 (lower (get_field (acc_quality a) "medium")) * duration)).
Proof.
  intros H. unfold _estimate_accommodation_cost. rewrite H. cbv zeta.
  erewrite nested_get_is_rate by reflexivity. reflexivity.
Qed.

Lemma transportation_cost_nonempty (t : Transportation) :
  not_transportation t = false ->
  _estimate_transportation_cost t
  = mul (PyFloat (rate transportation_rates "flight" (decimal 15 2)
                    (lower (get_field (tr_type t) "flight"))
                    (lower (get_field (tr_quality t) "economy"))))
        (get_field (tr_distance t) (PyInt 0)).
Proof.
  intros H. unfold _estimate_transportation_cost. rewrite H. cbv zeta.
  erewrite nested_get_is_rate by reflexivity. reflexivity.
Qed.

Lemma activity_rate_is_rate (a : Activity) :
  activity_rate a
  = rate activity_rates "sightseeing" 15
      (lower (get_field (act_type a) "sightseeing"))
      (lower (get_field (act_quality a) "standard")).
Proof.
  unfold activity_rate. cbv zeta.
  erewrite nested_get_is_rate by reflexivity. reflexivity.
Qed.

(** C6.  The accommodation cost of a record with a type and a quality is
    the nightly rate of the case-folded pair times the duration, where the
    rate is resolved by the two-level fallback (an unknown type reads the
    ["hotel"] table, a quality unknown in the resolved table gives 100);
    an absent record and an empty one cost 0. *)
Theorem accommodation_cost_by_rate_lookup (type quality : string) (duration : Z) :
  _estimate_accommodation_cost
    {| acc_type := Some type; acc_quality := Some quality |} duration
  = Ok (PyInt (rate accommodation_rates "hotel" 100 (lower type) (lower quality)
               * duration))
  /\ _estimate_accommodation_cost (get_field None no_accommodation) duration
     = Ok (PyFloat (S754_zero false))
  /\ _estimate_accommodation_cost (get_field (Some no_accommodation) no_accommodation)
       duration
     = Ok (PyFloat (S754_zero false)).
Proof.
  split; [|split; reflexivity].
  now rewrite accommodation_cost_nonempty.
Qed.

(** The two examples of the specification: a luxury hotel for three
    nights, and an unknown type read in the hotel table. *)
Example accommodation_hotel_luxury :
  _estimate_accommodation_cost
    {| acc_type := Some "hotel"; acc_quality := Some "luxury" |} 3 = Ok (PyInt 600).
Proof. reflexivity. Qed.

Example accommodation_igloo_medium :
  _estimate_accommodation_cost
    {| acc_type := Some "igloo"; acc_quality := Some "medium" |} 2 = Ok (PyInt 200).
Proof. reflexivity. Qed.

Example accommodation_case_folded :
  _estimate_accommodation_cost
    {| acc_type := Some "Resort"; acc_quality := Some "LUXURY" |} 2 = Ok (PyInt 800).
Proof. reflexivity. Qed.

Example accommodation_unknown_quality :
  _estimate_accommodation_cost
    {| acc_type := Some "hostel"; acc_quality := Some "palatial" |} 2 = Ok (PyInt 200).
Proof. reflexivity. Qed.

(** C7.  The transportation cost of a record with a type, a quality and a
    distance is the per-unit rate of the case-folded pair times the
    distance, where the rate is resolved by the two-level fallback (an
    unknown type reads the ["flight"] table, an unknown quality gives
    0.15); an absent record and an empty one cost 0. *)
Theorem transportation_cost_by_rate_lookup (type quality : string) (distance : num) :
  _estimate_transportation_cost
    {| tr_type := Some type; tr_distance := Some distance; tr_quality := Some quality |}
  = mul (PyFloat (rate transportation_rates "flight" (decimal 15 2)
                    (lower type) (lower quality)))
        distance
  /\ _estimate_transportation_cost (get_field None no_transportation)
     = Ok (PyFloat (S754_zero false))
  /\ _estimate_transportation_cost (get_field (Some no_transportation) no_transportation)
     = Ok (PyFloat (S754_zero false)).
Proof.
  split; [|split; reflexivity].
  now rewrite transportation_cost_nonempty.
Qed.

(** The example of the specification: 3600 units by economy flight cost
    [0.15 * 3600], which is the double 540. *)
Example transportation_flight_economy :
  _estimate_transportation_cost
    {| tr_type := Some "flight"; tr_distance := Some (PyInt 3600);
       tr_quality := Some "economy" |}
  = Ok (PyFloat (Z2SF 540)).
Proof. vm_compute. reflexivity. Qed.

Example transportation_unknown_type_and_quality :
  _estimate_transportation_cost
    {| tr_type := Some "Rocket"; tr_distance := Some (PyInt 3600);
       tr_quality := Some "steerage" |}
  = Ok (PyFloat (Z2SF 540)).
Proof. vm_compute. reflexivity. Qed.

(** C10.  Inside a record that is present and not empty, a missing field
    is read as a named default before the lookup: a missing accommodation
    type as ["hotel"] and quality as ["medium"], a missing transportation
    quality as ["economy"], a missing activity type as ["sightseeing"] and
    quality as ["standard"].  So a resort without a quality costs 200 a
    night, and a museum without a quality contributes 20.  (The equation
    on transportation records is stated for every type and distance: when
    both are missing too, the record on the left is empty and both sides
    are [0.0].) *)
Theorem missing_fields_read_as_named_defaults :
  (forall (quality : string) (duration : Z),
      _estimate_accommodation_cost
        {| acc_type := None; acc_quality := Some quality |} duration
      = _estimate_accommodation_cost
          {| acc_type := Some "hotel"; acc_quality := Some quality |} duration)
  /\ (forall (type : string) (duration : Z),
      _estimate_accommodation_cost
        {| acc_type := Some type; acc_quality := None |} duration
      = _estimate_accommodation_cost
          {| acc_type := Some type; acc_quality := Some "medium" |} duration)
  /\ (forall duration : Z,
      _estimate_accommodation_cost
        {| acc_type := Some "resort"; acc_quality := None |} duration
      = Ok (PyInt (200 * duration)))
  /\ (forall (type : option string) (distance : option num),
      _estimate_transportation_cost
        {| tr_type := type; tr_distance := distance; tr_quality := None |}
      = _estimate_transportation_cost
          {| tr_type := type; tr_distance := distance; tr_quality := Some "economy" |})
  /\ (forall (duration : option num) (quality : option string),
      activity_rate
        {| act_type := None; act_duration := duration; act_quality := quality |}
      = activity_rate
          {| act_type := Some "sightseeing"; act_duration := duration;
             act_quality := quality |})
  /\ (forall (type : option string) (duration : option num),
      activity_rate
        {| act_type := type; act_duration := duration; act_quality := None |}
      = activity_rate
          {| act_type := type; act_duration := duration;
             act_quality := Some "standard" |})
  /\ _estimate_activity_cost
       [ {| act_type := Some "museum"; act_duration := None; act_quality := None |} ]
     = Ok (PyFloat (Z2SF 20)).
Proof.
  repeat split; try reflexivity.
  intros type distance. destruct type, distance; reflexivity.
Qed.

(** *** Activities *)

Lemma activity_rate_same_but_duration (a b : Activity) :
  same_but_duration a b -> activity_rate a = activity_rate b.
Proof.
  intros [Ht Hq]. unfold activity_rate. now rewrite Ht, Hq.
Qed.

Lemma activity_loop_same_but_duration (l1 l2 : list Activity) :
  Forall2 same_but_duration l1 l2 ->
  forall start : outcome num,
    fold_left (fun total_cost activity =>
                 acc <- total_cost ;; add acc (PyInt (activity_rate activity)))
              l1 start
    = fold_left (fun total_cost activity =>
                   acc <- total_cost ;; add acc (PyInt (activity_rate activity)))
                l2 start.
Proof.
  induction 1 as [|a b l1 l2 Hab _ IH]; intros start; simpl.
  - reflexivity.
  - rewrite (activity_rate_same_but_duration Hab). apply IH.
Qed.

(** C4.  Two lists of activities of the same length whose records agree,
    position by position, on type and quality (and so differ at most in
    their durations) have the same cost. *)
Theorem activity_cost_ignores_duration (l1 l2 : list Activity) :
  Forall2 same_but_duration l1 l2 ->
  _estimate_activity_cost l1 = _estimate_activity_cost l2.
Proof.
  intros H. unfold _estimate_activity_cost.
  destruct H as [|a b l1 l2 Hab H]; [reflexivity|].
  cbn [not_activities].
  apply activity_loop_same_but_duration. now constructor.
Qed.

Lemma activity_cost_ignores_duration_witness :
  _estimate_activity_cost
    [ {| act_type := Some "museum"; act_duration := Some (PyInt 1);
         act_quality := Some "premium" |};
      {| act_type := Some "dining"; act_duration := None; act_quality := None |} ]
  = _estimate_activity_cost
      [ {| act_type := Some "museum"; act_duration := Some (PyFloat (decimal 75 1));
           act_quality := Some "premium" |};
        {| act_type := Some "dining"; act_duration := Some (PyInt (-3));
           act_quality := None |} ].
Proof.
  apply activity_cost_ignores_duration.
  repeat constructor.
Defined.

(** *** Food *)

(** C5.  The food cost is [40 * factor * duration]: the factor is 1.5 when
    the lower-cased destination contains a keyword of the first group,
    whatever the second group says; 0.7 when it contains none of the first
    group and one of the second; 1.0 otherwise. *)
Theorem food_cost_by_destination (destination : string) (duration : Z) :
  (mentions expensive_regions destination ->
   _estimate_food_cost destination duration = food_formula (decimal 15 1) duration)
  /\ (~ mentions expensive_regions destination ->
      mentions cheap_regions destination ->
      _estimate_food_cost destination duration = food_formula (decimal 7 1) duration)
  /\ (~ mentions expensive_regions destination ->
      ~ mentions cheap_regions destination ->
      _estimate_food_cost destination duration = food_formula (decimal 10 1) duration).
Proof.
  unfold _estimate_food_cost, food_formula, expensive_regions, cheap_regions.
  repeat split.
  - intros H1. apply any_contains_iff_mentions in H1. now rewrite H1.
  - intros H1 H2. apply any_contains_false_iff in H1.
    apply any_contains_iff_mentions in H2. now rewrite H1, H2.
  - intros H1 H2. apply any_contains_false_iff in H1.
    apply any_contains_false_iff in H2. now rewrite H1, H2.
Qed.

Lemma food_cost_by_destination_witness :
  _estimate_food_cost "Eurasia: Europe and ASIA" 3 = food_formula (decimal 15 1) 3
  /\ _estimate_food_cost "Tokyo, Asia" 3 = food_formula (decimal 7 1) 3
  /\ _estimate_food_cost "Paris, France" 3 = food_formula (decimal 10 1) 3.
Proof.
  split; [|split].
  - apply (food_cost_by_destination "Eurasia: Europe and ASIA" 3).
    apply any_contains_iff_mentions. vm_compute. reflexivity.
  - apply (food_cost_by_destination "Tokyo, Asia" 3).
    + apply any_contains_false_iff. vm_compute. reflexivity.
    + apply any_contains_iff_mentions. vm_compute. reflexivity.
  - apply (food_cost_by_destination "Paris, France" 3).
    + apply any_contains_false_iff. vm_compute. reflexivity.
    + apply any_contains_false_iff. vm_compute. reflexivity.
Defined.

(** The daily rates [40 * factor] are the doubles 60, 28 and 40. *)
Lemma daily_food_rates :
  mul (PyInt 40) (PyFloat (decimal 15 1)) = Ok (PyFloat (Z2SF 60))
  /\ mul (PyInt 40) (PyFloat (decimal 7 1)) = Ok (PyFloat (Z2SF 28))
  /\ mul (PyInt 40) (PyFloat (decimal 10 1)) = Ok (PyFloat (Z2SF 40)).
Proof. vm_compute. repeat split. Qed.

(** *** The documented example and the empty plan *)

(** C8.  The plan of [main] (Paris, seven nights, a medium hotel, an
    economy flight of 3600, a museum, sightseeing and premium dining) is
    estimated at accommodation 700, transportation 540, activities 115,
    food 280, miscellaneous 140 and total 1775. *)
Theorem paris_example :
  estimate_budget paris_plan
  = Ok {| bb_accommodation := PyInt 700;
          bb_transportation := PyFloat (Z2SF 540);
          bb_activities := PyFloat (Z2SF 115);
          bb_food := PyFloat (Z2SF 280);
          bb_miscellaneous := PyInt 140;
          bb_total := PyFloat (Z2SF 1775) |}
  /\ eq (PyFloat (Z2SF 540)) (PyInt 540) = true
  /\ eq (PyFloat (Z2SF 115)) (PyInt 115) = true
  /\ eq (PyFloat (Z2SF 280)) (PyInt 280) = true
  /\ eq (PyFloat (Z2SF 1775)) (PyInt 1775) = true.
Proof. vm_compute. repeat split. Qed.

(** C9.  The empty plan is estimated at 0 in all six amounts. *)
Theorem empty_plan_all_zero :
  exists b : BudgetBreakdown,
    estimate_budget empty_plan = Ok b
    /\ all_zero b = true
    /\ b = {| bb_accommodation := PyFloat (S754_zero false);
              bb_transportation := PyFloat (S754_zero false);
              bb_activities := PyFloat (S754_zero false);
              bb_food := PyFloat (S754_zero false);
              bb_miscellaneous := PyInt 0;
              bb_total := PyFloat (S754_zero false) |}.
Proof. eexists. vm_compute. repeat split. Qed.

(** *** Aggregation *)

(** What a returned breakdown records: each amount is the value of its
    estimator, and the total is the value of [sum] over the five. *)
Lemma estimate_budget_with_inv (builtin_sum : list num -> outcome num)
  (p : TravelPlan) (b : BudgetBreakdown) :
  estimate_budget_with builtin_sum p = Ok b ->
  _estimate_accommodation_cost
    (get_field (accommodation p) no_accommodation) (plan_duration p)
  = Ok (bb_accommodation b)
  /\ _estimate_transportation_cost (get_field (transportation p) no_transportation)
     = Ok (bb_transportation b)
  /\ _estimate_activity_cost (get_field (activities p) []) = Ok (bb_activities b)
  /\ _estimate_food_cost (get_field (destination p) "") (plan_duration p)
     = Ok (bb_food b)
  /\ _estimate_miscellaneous_cost (get_field (destination p) "") (plan_duration p)
     = Ok (bb_miscellaneous b)
  /\ builtin_sum [bb_accommodation b; bb_transportation b; bb_activities b;
                  bb_food b; bb_miscellaneous b]
     = Ok (bb_total b).
Proof.
  unfold estimate_budget_with, plan_duration. cbv zeta.
  destruct (_estimate_accommodation_cost _ _) as [a|]; [|discriminate].
  destruct (_estimate_transportation_cost _) as [t|]; [|discriminate].
  destruct (_estimate_activity_cost _) as [v|]; [|discriminate].
  destruct (_estimate_food_cost _ _) as [f|]; [|discriminate].
  destruct (_estimate_miscellaneous_cost _ _) as [m|]; [|discriminate].
  cbn [bind set_accommodation set_transportation set_activities set_food
       set_miscellaneous bb_accommodation bb_transportation bb_activities bb_food
       bb_miscellaneous].
  destruct (builtin_sum _) as [s|] eqn:Hs; [|discriminate].
  cbn [bind]. intros H.
  replace b with
    (set_total s
       (set_miscellaneous m
          (set_food f
             (set_activities v
                (set_transportation t
                   (set_accommodation a
                      {| bb_accommodation := PyInt 0; bb_transportation := PyInt 0;
                         bb_activities := PyInt 0; bb_food := PyInt 0;
                         bb_miscellaneous := PyInt 0; bb_total := PyInt 0 |}))))))
    by congruence.
  cbn [set_total set_accommodation set_transportation set_activities set_food
       set_miscellaneous bb_accommodation bb_transportation bb_activities bb_food
       bb_miscellaneous bb_total].
  now rewrite Hs.
Qed.

Lemma estimate_budget_inv (p : TravelPlan) (b : BudgetBreakdown) :
  estimate_budget p = Ok b ->
  _estimate_accommodation_cost
    (get_field (accommodation p) no_accommodation) (plan_duration p)
  = Ok (bb_accommodation b)
  /\ _estimate_transportation_cost (get_field (transportation p) no_transportation)
     = Ok (bb_transportation b)
  /\ _estimate_activity_cost (get_field (activities p) []) = Ok (bb_activities b)
  /\ _estimate_food_cost (get_field (destination p) "") (plan_duration p)
     = Ok (bb_food b)
  /\ _estimate_miscellaneous_cost (get_field (destination p) "") (plan_duration p)
     = Ok (bb_miscellaneous b)
  /\ sum [bb_accommodation b; bb_transportation b; bb_activities b; bb_food b;
          bb_miscellaneous b]
     = Ok (bb_total b).
Proof.
  apply estimate_budget_with_inv.
Qed.

(** The accommodation estimator returns an integer or the float [0.0]. *)
Lemma accommodation_cost_shape (a : Accommodation) (duration : Z) (x : num) :
  _estimate_accommodation_cost a duration = Ok x ->
  (exists z : Z, x = PyInt z) \/ x = PyFloat (S754_zero false).
Proof.
  unfold _estimate_accommodation_cost.
  destruct (not_accommodation a); cbv zeta; unfold mul; intros H.
  - right. injection H as H. now subst x.
  - left. injection H as H. subst x. now eexists.
Qed.

Lemma add_zero_left (x : num) :
  (exists z : Z, x = PyInt z) \/ x = PyFloat (S754_zero false) ->
  add (PyInt 0) x = Ok x.
Proof.
  intros [[z ->]| ->]; reflexivity.
Qed.

Lemma float_eq_refl (f : float) : f <> S754_nan -> SFeqb f f = true.
Proof.
  unfold SFeqb. destruct f as [s|s| |s m e]; intros H; try (now destruct s).
  - now elim H.
  - simpl. rewrite Z.compare_refl, Pos.compare_cont_refl. now destruct s.
Qed.

Lemma eq_refl_unless_nan (x : num) : is_nan x = false -> eq x x = true.
Proof.
  destruct x as [z|f]; simpl.
  - intros _. apply Z.eqb_refl.
  - intros H. apply float_eq_refl. intros ->. discriminate H.
Qed.

(** Where [sum] adds from left to right, the total is the value of
    [accommodation + transportation + activities + food + miscellaneous]:
    the sum evaluates, to the very number stored under ["total"]. *)
Lemma left_to_right_total_is_chain (p : TravelPlan) (b : BudgetBreakdown) :
  estimate_budget p = Ok b -> sum_of_categories b = Ok (bb_total b).
Proof.
  intros H. apply estimate_budget_inv in H.
  destruct H as (Ha & _ & _ & _ & _ & Hsum).
  unfold sum, sum_of_categories in *. cbn [fold_left bind] in Hsum.
  rewrite (add_zero_left (accommodation_cost_shape _ _ Ha)) in Hsum.
  cbn [bind] in Hsum.
  destruct (add (bb_accommodation b) (bb_transportation b)) as [s1|];
    cbn [bind] in *; [|discriminate Hsum].
  destruct (add s1 (bb_activities b)) as [s2|];
    cbn [bind] in *; [|discriminate Hsum].
  destruct (add s2 (bb_food b)) as [s3|];
    cbn [bind] in *; [|discriminate Hsum].
  exact Hsum.
Qed.

(** The bus plan under the two summations: the amounts are the same, the
    totals differ in the last bit.  Added from left to right, 0.08, 115,
    40 and 20 round to 175.07999999999998; the compensated sum gives back
    what was rounded away and returns 175.08. *)
Example bus_plan_left_to_right :
  estimate_budget bus_plan
  = Ok {| bb_accommodation := PyFloat (S754_zero false);
          bb_transportation := PyFloat (decimal 8 2);
          bb_activities := PyFloat (Z2SF 115);
          bb_food := PyFloat (Z2SF 40);
          bb_miscellaneous := PyInt 20;
          bb_total := PyFloat (S754_finite false 6160079865312706 (-45)) |}.
Proof. vm_compute. reflexivity. Qed.

Example bus_plan_compensated :
  estimate_budget_with sum_compensated bus_plan
  = Ok {| bb_accommodation := PyFloat (S754_zero false);
          bb_transportation := PyFloat (decimal 8 2);
          bb_activities := PyFloat (Z2SF 115);
          bb_food := PyFloat (Z2SF 40);
          bb_miscellaneous := PyInt 20;
          bb_total := PyFloat (decimal 17508 2) |}.
Proof. vm_compute. reflexivity. Qed.

(** On the plan of [main] every addition is exact and the two summations
    agree. *)
Example paris_plan_compensated :
  estimate_budget_with sum_compensated paris_plan = estimate_budget paris_plan.
Proof. vm_compute. reflexivity. Qed.

Example nan_distance_plan_estimate :
  estimate_budget nan_distance_plan
  = Ok {| bb_accommodation := PyFloat (S754_zero false);
          bb_transportation := PyFloat S754_nan;
          bb_activities := PyFloat (S754_zero false);
          bb_food := PyFloat (Z2SF 40);
          bb_miscellaneous := PyInt 20;
          bb_total := PyFloat S754_nan |}.
Proof. vm_compute. reflexivity. Qed.

(** C1, as stated, fails under either summation.  Where [sum] adds from
    left to right, a distance that is NaN gives a total that is NaN, and
    NaN compares unequal to the sum of the five amounts, itself NaN.
    Where [sum] is compensated, the total of the bus plan is 175.08 and
    the five amounts add up to 175.07999999999998. *)
Lemma total_differs_from_sum :
  ~ (forall (p : TravelPlan) (b : BudgetBreakdown),
        estimate_budget p = Ok b -> total_equals_sum b = true)
  /\ ~ (forall (p : TravelPlan) (b : BudgetBreakdown),
          estimate_budget_with sum_compensated p = Ok b -> total_equals_sum b = true).
Proof.
  split; intros H.
  - specialize (H nan_distance_plan _ nan_distance_plan_estimate). discriminate H.
  - specialize (H bus_plan _ bus_plan_compensated).
    vm_compute in H. discriminate H.
Qed.

(** C1, amended.  Whatever summation the builtin [sum] performs, the
    total of a breakdown returned by [estimate_budget] is the value of
    [sum] on its five other amounts: it is computed from them and never
    set independently.  Where [sum] adds from left to right, that value
    is the very value of [accommodation + transportation + activities +
    food + miscellaneous], so that the total [==] that sum whenever it is
    not a NaN. *)
Theorem total_is_builtin_sum_of_categories :
  (forall (builtin_sum : list num -> outcome num) (p : TravelPlan)
          (b : BudgetBreakdown),
      estimate_budget_with builtin_sum p = Ok b ->
      builtin_sum [bb_accommodation b; bb_transportation b; bb_activities b;
                   bb_food b; bb_miscellaneous b]
      = Ok (bb_total b))
  /\ (forall (p : TravelPlan) (b : BudgetBreakdown),
        estimate_budget p = Ok b ->
        sum_of_categories b = Ok (bb_total b)
        /\ (is_nan (bb_total b) = false -> total_equals_sum b = true)).
Proof.
  split.
  - intros builtin_sum p b H. now apply estimate_budget_with_inv in H.
  - intros p b H. pose proof (left_to_right_total_is_chain _ H) as Hsoc.
    split; [exact Hsoc|].
    intros Hnan. unfold total_equals_sum. rewrite Hsoc.
    now apply eq_refl_unless_nan.
Qed.

Lemma total_is_builtin_sum_of_categories_witness :
  sum_compensated
    [PyFloat (S754_zero false); PyFloat (decimal 8 2); PyFloat (Z2SF 115);
     PyFloat (Z2SF 40); PyInt 20]
  = Ok (PyFloat (decimal 17508 2))
  /\ total_equals_sum
       {| bb_accommodation := PyInt 700;
          bb_transportation := PyFloat (Z2SF 540);
          bb_activities := PyFloat (Z2SF 115);
          bb_food := PyFloat (Z2SF 280);
          bb_miscellaneous := PyInt 140;
          bb_total := PyFloat (Z2SF 1775) |} = true.
Proof.
  split.
  - exact (proj1 total_is_builtin_sum_of_categories sum_compensated bus_plan _
             bus_plan_compensated).
  - apply (proj2 total_is_builtin_sum_of_categories paris_plan).
    + vm_compute. reflexivity.
    + reflexivity.
Defined.

(** *** Refinement *)

Section RefineFacts.
Variable J : Type.
Variable call_llm : string -> outcome string.
Variable json_loads : string -> outcome J.
Variable json_text_plan : TravelPlan -> string.
Variable json_text_budget : BudgetBreakdown -> string.

(** When both dumps can be written, the function is the [try] around the
    call of the model on the prompt. *)
Lemma refine_with_prompt (p : TravelPlan) (b : BudgetBreakdown) :
  plan_writable p = true -> budget_writable b = true ->
  refine_budget_with_llm call_llm json_loads json_text_plan json_text_budget p b
  = try_except
      (refined_budget <-
         call_llm (refinement_prompt (json_text_plan p) (json_text_budget b)) ;;
       parsed <- json_loads refined_budget ;;
       Ok (Refined parsed))
      (fun e =>
         print_then_return
           ("Error refining budget with LLM: " ++ exc_str e) (Unrefined b)).
Proof.
  intros Hp Hb. unfold refine_budget_with_llm, json_dumps_plan, json_dumps_budget.
  now rewrite Hp, Hb.
Qed.

(** When one of the dumps cannot be written, [json.dumps] raises before
    the [try]: the exception reaches the caller, nothing is printed and
    the model is not consulted. *)
Lemma refine_dumps_raises (p : TravelPlan) (b : BudgetBreakdown) :
  plan_writable p = false \/ budget_writable b = false ->
  refine_budget_with_llm call_llm json_loads json_text_plan json_text_budget p b
  = ([], Raise int_str_error).
Proof.
  unfold refine_budget_with_llm, json_dumps_plan, json_dumps_budget.
  intros [H|H].
  - now rewrite H.
  - rewrite H. now destruct (plan_writable p).
Qed.

(** When the model answers and the answer parses, the parsed object is
    returned as it is, whatever its shape, and nothing is printed. *)
Lemma refine_success (p : TravelPlan) (b : BudgetBreakdown) (text : string) (j : J) :
  plan_writable p = true -> budget_writable b = true ->
  call_llm (refinement_prompt (json_text_plan p) (json_text_budget b)) = Ok text ->
  json_loads text = Ok j ->
  refine_budget_with_llm call_llm json_loads json_text_plan json_text_budget p b
  = ([], Ok (Refined j)).
Proof.
  intros Hp Hb Hc Hl. rewrite refine_with_prompt by assumption.
  rewrite Hc. cbn [bind]. rewrite Hl. reflexivity.
Qed.

(** C2, amended.  For a plan and an initial budget that [json.dumps] can
    write (no integer of more than 4300 digits), so that the prompt is
    built, [refine_budget_with_llm] does not raise; when [call_llm]
    raises, or when [json.loads] raises on its answer, the failure is
    printed and the value returned is the [initial_budget] it was
    given. *)
Theorem refine_failure_returns_initial (p : TravelPlan) (b : BudgetBreakdown) :
  plan_writable p = true ->
  budget_writable b = true ->
  (exists r : Refinement J,
      snd (refine_budget_with_llm call_llm json_loads json_text_plan
             json_text_budget p b) = Ok r)
  /\ (forall e : exception,
         call_llm (refinement_prompt (json_text_plan p) (json_text_budget b))
         = Raise e ->
         refine_budget_with_llm call_llm json_loads json_text_plan
           json_text_budget p b
         = (["Error refining budget with LLM: " ++ exc_str e], Ok (Unrefined b)))
  /\ (forall (text : string) (e : exception),
         call_llm (refinement_prompt (json_text_plan p) (json_text_budget b))
         = Ok text ->
         json_loads text = Raise e ->
         refine_budget_with_llm call_llm json_loads json_text_plan
           json_text_budget p b
         = (["Error refining budget with LLM: " ++ exc_str e], Ok (Unrefined b))).
Proof.
  intros Hp Hb. rewrite refine_with_prompt by assumption.
  repeat split.
  - destruct (call_llm _) as [text|e]; cbn.
    + destruct (json_loads text) as [j|e]; cbn; eauto.
    + eauto.
  - intros e Hc. now rewrite Hc.
  - intros text e Hc Hl. rewrite Hc. cbn [bind]. now rewrite Hl.
Qed.
End RefineFacts.

Lemma refine_failure_returns_initial_witness :
  refine_budget_with_llm
    (fun _ => Raise (Exception "connection refused"))
    (fun _ => Ok tt) (fun _ => "{}") (fun _ => "{}") paris_plan paris_budget
  = (["Error refining budget with LLM: connection refused"],
     Ok (Unrefined paris_budget))
  /\ refine_budget_with_llm
       (fun _ => Ok "Sure! Here is the refined budget:")
       (fun _ => Raise (Exception "Expecting value: line 1 column 1 (char 0)"))
       (fun _ => "{}") (fun _ => "{}") paris_plan paris_budget
     = (["Error refining budget with LLM: Expecting value: line 1 column 1 (char 0)"],
        Ok (Unrefined (J := unit) paris_budget)).
Proof.
  assert (Hp : plan_writable paris_plan = true) by (vm_compute; reflexivity).
  assert (Hb : budget_writable paris_budget = true) by (vm_compute; reflexivity).
  split.
  - exact (proj1 (proj2 (refine_failure_returns_initial
                           (fun _ => Raise (Exception "connection refused"))
                           (fun _ => Ok tt) (fun _ => "{}") (fun _ => "{}")
                           paris_plan paris_budget Hp Hb))
                 (Exception "connection refused") eq_refl).
  - exact (proj2 (proj2 (refine_failure_returns_initial
                           (fun _ => Ok "Sure! Here is the refined budget:")
                           (fun _ => Raise (Exception "Expecting value: line 1 column 1 (char 0)"))
                           (fun _ => "{}") (fun _ => "{}")
                           paris_plan paris_budget Hp Hb))
                 "Sure! Here is the refined budget:"
                 (Exception "Expecting value: line 1 column 1 (char 0)")
                 eq_refl eq_refl).
Defined.

(** A stay of [10^5000] nights has a duration of 5001 digits, which
    [json.dumps] refuses to write: the [ValueError] is raised while the
    prompt is built, outside the [try], and reaches the caller. *)
Example refine_long_stay :
  refine_budget_with_llm
    (fun _ => Ok "{}") (fun _ => Ok tt) (fun _ => "{}") (fun _ => "{}")
    (stay_of (10 ^ 5000)) paris_budget
  = ([], Raise int_str_error).
Proof. vm_compute. reflexivity. Qed.

(** C2, as stated, fails: [refine_budget_with_llm] does raise to its
    caller, on the plan whose duration is [10^5000]. *)
Lemma refine_raises_on_long_integer :
  ~ (forall (J : Type) (call_llm : string -> outcome string)
            (json_loads : string -> outcome J)
            (json_text_plan : TravelPlan -> string)
            (json_text_budget : BudgetBreakdown -> string)
            (p : TravelPlan) (b : BudgetBreakdown),
        exists r : Refinement J,
          snd (refine_budget_with_llm call_llm json_loads json_text_plan
                 json_text_budget p b) = Ok r).
Proof.
  intros H.
  destruct (H unit (fun _ => Ok "{}") (fun _ => Ok tt) (fun _ => "{}")
              (fun _ => "{}") (stay_of (10 ^ 5000)) paris_budget) as [r Hr].
  rewrite refine_long_stay in Hr. discriminate Hr.
Qed.

(** *** Signs of rounded results

    Rounding keeps the sign it is given: the mantissa stays non-negative
    through the shifts and the rounding to nearest even, so the rounded
    value is a zero, an infinity or a finite double of that sign, and
    never a NaN. *)

Lemma shr_1_nonneg (mrs : shr_record) : 0 <= shr_m mrs -> 0 <= shr_m (shr_1 mrs).
Proof.
  destruct mrs as [m r s]. destruct m as [|[p|p|]|[p|p|]]; simpl; lia.
Qed.

Lemma iter_shr_1_nonneg (p : positive) :
  forall mrs : shr_record, 0 <= shr_m mrs -> 0 <= shr_m (iter_pos shr_1 p mrs).
Proof.
  induction p as [p IH|p IH|]; intros mrs H; simpl.
  - apply IH, IH, shr_1_nonneg, H.
  - apply IH, IH, H.
  - apply shr_1_nonneg, H.
Qed.

Lemma shr_fexp_nonneg (m e : Z) (l : location) :
  0 <= m -> 0 <= shr_m (fst (shr_fexp prec emax m e l)).
Proof.
  intros H. unfold shr_fexp, shr.
  assert (H0 : 0 <= shr_m (shr_record_of_loc m l)) by (destruct l as [|[]]; exact H).
  destruct (fexp prec emax (Zdigits2 m + e) - e); simpl; trivial.
  now apply iter_shr_1_nonneg.
Qed.

Lemma round_nearest_even_nonneg (m : Z) (l : location) :
  0 <= m -> 0 <= round_nearest_even m l.
Proof.
  intros H. destruct l as [|[]]; simpl; try destruct (Z.even m); lia.
Qed.

Lemma binary_round_aux_signed (s : bool) (m e : Z) (l : location) :
  0 <= m -> signed s (binary_round_aux prec emax s m e l).
Proof.
  intros H. unfold binary_round_aux.
  pose proof (shr_fexp_nonneg e l H) as H1.
  destruct (shr_fexp prec emax m e l) as [mrs1 e1]. simpl in H1.
  pose proof (shr_fexp_nonneg e1 loc_Exact
                (round_nearest_even_nonneg (loc_of_shr_record mrs1) H1)) as H2.
  destruct (shr_fexp prec emax _ e1 loc_Exact) as [mrs2 e2]. simpl in H2.
  unfold signed. destruct (shr_m mrs2) as [|q|q].
  - now left.
  - destruct (e2 <=? emax - prec)%Z; eauto.
  - lia.
Qed.

Lemma binary_round_signed (s : bool) (m : positive) (e : Z) :
  signed s (binary_round prec emax s m e).
Proof.
  unfold binary_round. destruct (shl_align m e _) as [mz ez].
  apply binary_round_aux_signed. lia.
Qed.

Lemma Z2SF_signed (z : Z) : 0 <= z -> signed false (Z2SF z).
Proof.
  intros H. unfold Z2SF, binary_normalize. destruct z as [|q|q].
  - now left.
  - apply binary_round_signed.
  - lia.
Qed.

Lemma signed_nonneg (f : float) : signed false f -> nonneg (PyFloat f) = true.
Proof.
  intros [->|[->|(m & e & ->)]]; reflexivity.
Qed.

(** [0 <= f] says that [f] is a zero or has the positive sign. *)
Lemma nonneg_float_inv (f : float) :
  nonneg (PyFloat f) = true -> (exists s : bool, f = S754_zero s) \/ signed false f.
Proof.
  unfold signed. destruct f as [s|[]| |[] m e]; simpl; intros H;
    try discriminate H; eauto 6.
Qed.

Lemma fmul_nonneg (x y : float) :
  positive_finite x -> nonneg (PyFloat y) = true -> nonneg (PyFloat (fmul x y)) = true.
Proof.
  intros (m & e & ->) Hy. destruct y as [s|[]| |[] my ey]; try discriminate Hy.
  - now destruct s.
  - reflexivity.
  - apply signed_nonneg. unfold fmul, SFmul. apply binary_round_aux_signed. lia.
Qed.

Lemma fadd_nonneg (x y : float) :
  nonneg (PyFloat x) = true -> nonneg (PyFloat y) = true ->
  nonneg (PyFloat (fadd x y)) = true.
Proof.
  intros Hx Hy.
  destruct x as [sx|[]| |[] mx ex]; try discriminate Hx;
    destruct y as [sy|[]| |[] my ey]; try discriminate Hy;
    try reflexivity; try (now destruct sx, sy).
  apply signed_nonneg. unfold fadd, SFadd, binary_normalize, cond_Zopp.
  cbn [Z.add]. apply binary_round_signed.
Qed.

(** *** Signs of the estimates *)

Lemma to_float_nonneg (x : num) (f : float) :
  nonneg x = true -> to_float x = Ok f -> nonneg (PyFloat f) = true.
Proof.
  destruct x as [z|g]; simpl.
  - intros Hz. apply Z.leb_le in Hz. unfold float_of_int.
    destruct (is_infinity (Z2SF z)); [discriminate|].
    intros H. injection H as H. subst f. now apply signed_nonneg, Z2SF_signed.
  - intros Hg H. injection H as H. now subst f.
Qed.

Lemma float_path_nonneg (op : float -> float -> float) (x y r : num) :
  (forall a b : float, nonneg (PyFloat a) = true -> nonneg (PyFloat b) = true ->
                       nonneg (PyFloat (op a b)) = true) ->
  nonneg x = true -> nonneg y = true ->
  (a <- to_float x ;; b <- to_float y ;; Ok (PyFloat (op a b))) = Ok r ->
  nonneg r = true.
Proof.
  intros Hop Hx Hy.
  destruct (to_float x) as [a|] eqn:Ha; [|discriminate]. cbn [bind].
  destruct (to_float y) as [b|] eqn:Hb; [|discriminate]. cbn [bind].
  intros H. injection H as H. subst r.
  apply Hop; [apply (to_float_nonneg x) | apply (to_float_nonneg y)]; assumption.
Qed.

Lemma add_nonneg (x y r : num) :
  nonneg x = true -> nonneg y = true -> add x y = Ok r -> nonneg r = true.
Proof.
  intros Hx Hy.
  destruct x as [a|f], y as [b|g];
    try (now apply float_path_nonneg; [apply fadd_nonneg | |]).
  intros H. injection H as H. subst r. simpl in *.
  apply Z.leb_le in Hx. apply Z.leb_le in Hy. apply Z.leb_le. lia.
Qed.

Lemma mul_positive_finite_nonneg (rate : float) (y r : num) :
  positive_finite rate -> nonneg y = true -> mul (PyFloat rate) y = Ok r ->
  nonneg r = true.
Proof.
  intros Hrate Hy. unfold mul. cbn [to_float bind].
  destruct y as [b|g];
    (destruct (to_float _) as [v|] eqn:Hv; [|discriminate]); cbn [bind];
    intros H; injection H as H; subst r; apply fmul_nonneg; trivial;
    eapply to_float_nonneg; eassumption.
Qed.

(** A property of every rate of a table and of the fallback rate holds of
    the rate the lookup resolves. *)
Lemma lookup_Forall {V : Type} (P : V -> Prop) (d : dict V) (k : string) (v : V) :
  Forall (fun entry => P (snd entry)) d -> lookup d k = Some v -> P v.
Proof.
  induction 1 as [|[k' v'] d Hv _ IH]; simpl; [discriminate|].
  destruct (String.eqb k' k); [|exact IH].
  intros H. now injection H as <-.
Qed.

Lemma rate_all_rates {V : Type} (P : V -> Prop) (rates : dict (dict V))
  (fallback_type : string) (fallback_rate : V) (type quality : string) :
  all_rates P rates -> P fallback_rate ->
  P (rate rates fallback_type fallback_rate type quality).
Proof.
  intros Hall Hfb. unfold rate, resolved_table.
  assert (Hrow : forall k table, lookup rates k = Some table ->
                                 Forall (fun entry => P (snd entry)) table).
  { intros k table. apply (lookup_Forall (fun t => Forall _ t)). exact Hall. }
  destruct (lookup rates type) as [table|] eqn:Ht.
  - destruct (lookup table quality) as [r|] eqn:Hq; [|exact Hfb].
    eapply lookup_Forall; [eapply Hrow; exact Ht | exact Hq].
  - destruct (lookup rates fallback_type) as [table|] eqn:Hf; [|exact Hfb].
    destruct (lookup table quality) as [r|] eqn:Hq; [|exact Hfb].
    eapply lookup_Forall; [eapply Hrow; exact Hf | exact Hq].
Qed.

Lemma accommodation_rates_nonneg : all_rates (fun r => 0 <= r) accommodation_rates.
Proof. repeat constructor; simpl; lia. Qed.

Lemma activity_rates_nonneg : all_rates (fun r => 0 <= r) activity_rates.
Proof. repeat constructor; simpl; lia. Qed.

Lemma transportation_rates_positive : all_rates positive_finite transportation_rates.
Proof. repeat constructor; vm_compute; eauto. Qed.

Lemma accommodation_cost_nonneg (a : Accommodation) (duration : Z) (x : num) :
  0 <= duration -> _estimate_accommodation_cost a duration = Ok x -> nonneg x = true.
Proof.
  intros Hd. destruct (not_accommodation a) eqn:Hne.
  - unfold _estimate_accommodation_cost. rewrite Hne.
    intros H. injection H as H. now subst x.
  - rewrite (accommodation_cost_nonempty _ _ Hne).
    intros H. injection H as H. subst x. simpl. apply Z.leb_le.
    apply Z.mul_nonneg_nonneg; trivial.
    apply (@rate_all_rates Z (fun r => 0 <= r)); [apply accommodation_rates_nonneg | lia].
Qed.

Lemma transportation_cost_nonneg (t : Transportation) (x : num) :
  nonneg (get_field (tr_distance t) (PyInt 0)) = true ->
  _estimate_transportation_cost t = Ok x -> nonneg x = true.
Proof.
  intros Hd. destruct (not_transportation t) eqn:Hne.
  - unfold _estimate_transportation_cost. rewrite Hne.
    intros H. injection H as H. now subst x.
  - rewrite (transportation_cost_nonempty _ Hne).
    apply mul_positive_finite_nonneg; trivial.
    apply rate_all_rates; [apply transportation_rates_positive | vm_compute; eauto].
Qed.

Lemma activity_rate_nonneg (a : Activity) : 0 <= activity_rate a.
Proof.
  rewrite activity_rate_is_rate.
  apply (@rate_all_rates Z (fun r => 0 <= r)); [apply activity_rates_nonneg | lia].
Qed.

Lemma activity_loop_nonneg (l : list Activity) :
  forall (start : outcome num) (x : num),
    (forall y : num, start = Ok y -> nonneg y = true) ->
    fold_left (fun total_cost activity =>
                 acc <- total_cost ;; add acc (PyInt (activity_rate activity)))
              l start = Ok x ->
    nonneg x = true.
Proof.
  induction l as [|a l IH]; intros start x Hstart; simpl.
  - apply Hstart.
  - apply IH. intros y Hy.
    destruct start as [s|]; [|discriminate Hy]. cbn [bind] in Hy.
    eapply add_nonneg; [now apply Hstart | | exact Hy].
    apply Z.leb_le, activity_rate_nonneg.
Qed.

Lemma activity_cost_nonneg (l : list Activity) (x : num) :
  _estimate_activity_cost l = Ok x -> nonneg x = true.
Proof.
  unfold _estimate_activity_cost. destruct (not_activities l).
  - intros H. injection H as H. now subst x.
  - apply activity_loop_nonneg. intros y H. injection H as H. now subst y.
Qed.

Lemma food_cost_nonneg (destination : string) (duration : Z) (x : num) :
  0 <= duration -> _estimate_food_cost destination duration = Ok x -> nonneg x = true.
Proof.
  intros Hd. unfold _estimate_food_cost.
  destruct daily_food_rates as (H15 & H7 & H10).
  destruct (any _ _); [rewrite H15|destruct (any _ _); [rewrite H7|rewrite H10]];
    cbn [bind]; apply mul_positive_finite_nonneg;
    [vm_compute; eauto | now apply Z.leb_le | vm_compute; eauto | now apply Z.leb_le
    | vm_compute; eauto | now apply Z.leb_le].
Qed.

Lemma miscellaneous_cost_nonneg (destination : string) (duration : Z) (x : num) :
  0 <= duration -> _estimate_miscellaneous_cost destination duration = Ok x ->
  nonneg x = true.
Proof.
  intros Hd H.
  assert (Hx : x = PyInt (20 * duration))
    by (change (Ok (PyInt (20 * duration)) = Ok x) in H; congruence).
  subst x. cbn [nonneg]. apply Z.leb_le. lia.
Qed.

Lemma sum_nonneg (xs : list num) :
  forall (start : outcome num) (x : num),
    (forall y : num, start = Ok y -> nonneg y = true) ->
    Forall (fun v => nonneg v = true) xs ->
    fold_left (fun acc v => bind acc (fun a => add a v)) xs start = Ok x ->
    nonneg x = true.
Proof.
  induction xs as [|v xs IH]; intros start x Hstart Hxs; simpl.
  - apply Hstart.
  - inversion Hxs as [|? ? Hv Hrest]; subst. apply IH; trivial.
    intros y Hy. destruct start as [s|]; [|discriminate Hy]. cbn [bind] in Hy.
    eapply add_nonneg; [now apply Hstart | exact Hv | exact Hy].
Qed.

(** A stay of minus one night: the food estimate is the double -40 and
    the miscellaneous estimate the integer -20. *)
Lemma negative_stay_estimate :
  estimate_budget (stay_of (-1))
  = Ok {| bb_accommodation := PyFloat (S754_zero false);
          bb_transportation := PyFloat (S754_zero false);
          bb_activities := PyFloat (S754_zero false);
          bb_food := PyFloat (SFopp (Z2SF 40));
          bb_miscellaneous := PyInt (-20);
          bb_total := PyFloat (SFopp (Z2SF 60)) |}.
Proof. vm_compute. reflexivity. Qed.

(** C3, as stated, fails: not every plan has a breakdown of non-negative
    amounts.  The plan with a duration of -1 and nothing else is given a
    food cost of -40, a miscellaneous cost of -20 and a total of -60. *)
Lemma negative_duration_negative_amounts :
  ~ (forall (p : TravelPlan) (b : BudgetBreakdown),
        estimate_budget p = Ok b -> all_nonneg b = true).
Proof.
  intros H. specialize (H (stay_of (-1)) _ negative_stay_estimate).
  discriminate H.
Qed.

(** C3, amended.  For a plan whose duration is not negative and whose
    transportation distance is not negative ([0 <= distance] holds, so it
    is not a NaN either), every amount of the breakdown returned by
    [estimate_budget] is non-negative. *)
Theorem amounts_nonneg_for_nonneg_plan (p : TravelPlan) (b : BudgetBreakdown) :
  0 <= plan_duration p ->
  nonneg (plan_distance p) = true ->
  estimate_budget p = Ok b ->
  all_nonneg b = true.
Proof.
  intros Hd Hdist H. apply estimate_budget_inv in H.
  destruct H as (Ha & Ht & Hv & Hf & Hm & Hsum).
  apply accommodation_cost_nonneg in Ha; trivial.
  apply transportation_cost_nonneg in Ht; trivial.
  apply activity_cost_nonneg in Hv.
  apply food_cost_nonneg in Hf; trivial.
  apply miscellaneous_cost_nonneg in Hm; trivial.
  assert (Htot : nonneg (bb_total b) = true).
  { eapply sum_nonneg; [| |exact Hsum].
    - intros y Hy. injection Hy as Hy. now subst y.
    - repeat constructor; assumption. }
  unfold all_nonneg. now rewrite Ha, Ht, Hv, Hf, Hm, Htot.
Qed.

Lemma amounts_nonneg_for_nonneg_plan_witness :
  all_nonneg {| bb_accommodation := PyInt 700;
                bb_transportation := PyFloat (Z2SF 540);
                bb_activities := PyFloat (Z2SF 115);
                bb_food := PyFloat (Z2SF 280);
                bb_miscellaneous := PyInt 140;
                bb_total := PyFloat (Z2SF 1775) |} = true.
Proof.
  apply (amounts_nonneg_for_nonneg_plan paris_plan).
  - vm_compute. discriminate.
  - reflexivity.
  - vm_compute. reflexivity.
Defined.

(** *** Absence of overflow

    The only exception the estimators can raise comes from converting an
    integer to a double.  The conversion succeeds below [2^1023]: the
    number of binary digits bounds the exponent the rounding can reach. *)

Lemma digits2_pos_size (p : positive) : digits2_pos p = Pos.size p.
Proof. induction p; simpl; congruence. Qed.

Lemma digits2_pos_le (m : positive) (n : Z) :
  Zpos m < 2 ^ n -> Zpos (digits2_pos m) <= n.
Proof.
  intros H. rewrite digits2_pos_size.
  assert (Hn : 0 <= n).
  { destruct (Z.le_gt_cases 0 n) as [|Hneg]; trivial.
    rewrite (Z.pow_neg_r 2 n Hneg) in H. lia. }
  pose proof (Pos.size_le m) as Hs.
  apply Pos2Z.pos_le_pos in Hs. rewrite Pos2Z.inj_pow in Hs.
  assert (Hlt : 2 ^ Zpos (Pos.size m) < 2 ^ (n + 1)).
  { replace (n + 1) with (Z.succ n) by lia. rewrite Z.pow_succ_r by exact Hn.
    change (Zpos m~0) with (2 * Zpos m) in Hs. lia. }
  apply Z.pow_lt_mono_r_iff in Hlt; lia.
Qed.

Lemma digits2_pos_succ (p : positive) :
  Zpos (digits2_pos (Pos.succ p)) <= Zpos (digits2_pos p) + 1.
Proof.
  induction p as [p IH|p IH|]; cbn [Pos.succ digits2_pos];
    rewrite ?Pos2Z.inj_succ; lia.
Qed.

Lemma digits2_pos_iter_xO (k m : positive) :
  Zpos (digits2_pos (Pos.iter xO m k)) = Zpos (digits2_pos m) + Zpos k.
Proof.
  induction k as [|k IH] using Pos.peano_ind.
  - cbn [Pos.iter digits2_pos]. rewrite Pos2Z.inj_succ. lia.
  - rewrite Pos.iter_succ. cbn [digits2_pos]. rewrite !Pos2Z.inj_succ. lia.
Qed.

Lemma shr_1_digits (mrs : shr_record) :
  0 <= shr_m mrs ->
  Zdigits2 (shr_m (shr_1 mrs)) <= Z.max 0 (Zdigits2 (shr_m mrs) - 1).
Proof.
  destruct mrs as [m r s].
  destruct m as [|[p|p|]|[p|p|]]; cbn [shr_1 shr_m Zdigits2 digits2_pos];
    rewrite ?Pos2Z.inj_succ; lia.
Qed.

Lemma Zdigits2_nonneg (m : Z) : 0 <= Zdigits2 m.
Proof. destruct m; simpl; lia. Qed.

Lemma iter_shr_1_digits (p : positive) :
  forall mrs : shr_record,
    0 <= shr_m mrs ->
    Zdigits2 (shr_m (iter_pos shr_1 p mrs)) <= Z.max 0 (Zdigits2 (shr_m mrs) - Zpos p).
Proof.
  induction p as [p IH|p IH|]; intros mrs H; simpl iter_pos.
  - pose proof (shr_1_nonneg mrs H) as H1.
    pose proof (shr_1_digits mrs H) as D1.
    pose proof (iter_shr_1_nonneg p _ H1) as H2.
    pose proof (IH _ H1) as D2. pose proof (IH _ H2) as D3. lia.
  - pose proof (iter_shr_1_nonneg p _ H) as H2.
    pose proof (IH _ H) as D2. pose proof (IH _ H2) as D3. lia.
  - apply shr_1_digits, H.
Qed.

Lemma Zdigits2_round (m : Z) (l : location) :
  0 <= m -> Zdigits2 (round_nearest_even m l) <= Zdigits2 m + 1.
Proof.
  intros H.
  assert (Hs : Zdigits2 (m + 1) <= Zdigits2 m + 1).
  { destruct m as [|p|p]; [cbn; lia| |lia].
    replace (Zpos p + 1) with (Zpos (Pos.succ p)) by lia.
    apply digits2_pos_succ. }
  destruct l as [|[]]; cbn [round_nearest_even]; try destruct (Z.even m); lia.
Qed.

(** One shift to the target exponent: the mantissa stays non-negative, the
    exponent becomes the larger of [e] and the target, and the magnitude
    (digits plus exponent) does not grow beyond the new exponent. *)
Lemma shr_fexp_bounds (m e : Z) (l : location) :
  0 <= m ->
  let r := shr_fexp prec emax m e l in
  snd r = Z.max e (fexp prec emax (Zdigits2 m + e))
  /\ Zdigits2 (shr_m (fst r)) + snd r <= Z.max (snd r) (Zdigits2 m + e).
Proof.
  intros H. unfold shr_fexp, shr.
  assert (H0 : shr_m (shr_record_of_loc m l) = m) by (destruct l as [|[]]; reflexivity).
  destruct (fexp prec emax (Zdigits2 m + e) - e) as [|p|p] eqn:Hn; cbn [fst snd].
  - rewrite H0. lia.
  - pose proof (iter_shr_1_digits p (shr_record_of_loc m l)) as Hd.
    rewrite H0 in Hd. specialize (Hd H). lia.
  - rewrite H0. lia.
Qed.

Lemma binary_round_aux_finite (s : bool) (m e : Z) (l : location) :
  0 <= m -> e <= 970 -> Zdigits2 m + e <= 1023 ->
  is_infinity (binary_round_aux prec emax s m e l) = false.
Proof.
  intros H He Hd. unfold binary_round_aux.
  pose proof (shr_fexp_nonneg e l H) as N1.
  destruct (shr_fexp_bounds e l H) as [E1 D1].
  destruct (shr_fexp prec emax m e l) as [mrs1 e1]. cbn [fst snd] in *.
  pose proof (round_nearest_even_nonneg (loc_of_shr_record mrs1) N1) as N2.
  pose proof (Zdigits2_round (loc_of_shr_record mrs1) N1) as R.
  destruct (shr_fexp_bounds e1 loc_Exact N2) as [E2 _].
  destruct (shr_fexp prec emax _ e1 loc_Exact) as [mrs2 e2]. cbn [fst snd] in *.
  destruct (shr_m mrs2); try reflexivity.
  unfold fexp, emin, prec, emax in *.
  destruct (Z.leb_spec e2 (1024 - 53)); [reflexivity | lia].
Qed.

Lemma binary_round_finite (s : bool) (m : positive) :
  Zpos m < 2 ^ 1023 -> is_infinity (binary_round prec emax s m 0) = false.
Proof.
  intros H. apply digits2_pos_le in H. unfold binary_round, shl_align.
  destruct (fexp prec emax (Zpos (digits2_pos m) + 0) - 0) as [|k|k] eqn:Hk;
    apply binary_round_aux_finite; cbn [Zdigits2];
    rewrite ?digits2_pos_iter_xO; unfold fexp, emin, prec, emax in *; lia.
Qed.

(** An integer below [2^1023] in absolute value converts to a double. *)
Lemma float_of_int_ok (z : Z) :
  Z.abs z < 2 ^ 1023 -> float_of_int z = Ok (Z2SF z).
Proof.
  intros H. unfold float_of_int.
  assert (Hfin : is_infinity (Z2SF z) = false).
  { unfold Z2SF, binary_normalize. destruct z as [|p|p]; [reflexivity| |];
      apply binary_round_finite; lia. }
  now rewrite Hfin.
Qed.

Lemma to_float_ok (x : num) :
  (forall z : Z, x = PyInt z -> Z.abs z < 2 ^ 1023) ->
  exists f : float, to_float x = Ok f.
Proof.
  intros H. destruct x as [z|f]; cbn [to_float].
  - rewrite float_of_int_ok by now apply H. now eexists.
  - now eexists.
Qed.

Lemma add_float_ok (x y : num) :
  (forall z : Z, x = PyInt z -> Z.abs z < 2 ^ 1023) ->
  (forall z : Z, y = PyInt z -> Z.abs z < 2 ^ 1023) ->
  (exists f : float, x = PyFloat f) \/ (exists f : float, y = PyFloat f) ->
  exists g : float, add x y = Ok (PyFloat g).
Proof.
  intros Hx Hy Hf.
  destruct (to_float_ok Hx) as [a Ha]. destruct (to_float_ok Hy) as [b Hb].
  destruct x as [zx|fx], y as [zy|fy]; unfold add; try rewrite Ha; try rewrite Hb;
    cbn [bind]; try (now eexists).
  destruct Hf as [[f Hf]|[f Hf]]; discriminate Hf.
Qed.

Lemma mul_float_ok (f : float) (y : num) :
  (forall z : Z, y = PyInt z -> Z.abs z < 2 ^ 1023) ->
  exists g : float, mul (PyFloat f) y = Ok (PyFloat g).
Proof.
  intros Hy. destruct (to_float_ok Hy) as [b Hb].
  unfold mul. cbn [to_float bind]. destruct y; rewrite Hb; now eexists.
Qed.

Lemma accommodation_rates_bounded :
  all_rates (fun r => 0 <= r <= 400) accommodation_rates.
Proof. repeat constructor; simpl; lia. Qed.

Lemma activity_rates_bounded :
  all_rates (fun r => 0 <= r <= 100) activity_rates.
Proof. repeat constructor; simpl; lia. Qed.

Lemma accommodation_cost_returns (a : Accommodation) (duration : Z) :
  exists x : num,
    _estimate_accommodation_cost a duration = Ok x
    /\ forall z : Z, x = PyInt z -> Z.abs z <= 400 * Z.abs duration.
Proof.
  destruct (not_accommodation a) eqn:Hne.
  - unfold _estimate_accommodation_cost. rewrite Hne.
    eexists. split; [reflexivity | discriminate].
  - rewrite (accommodation_cost_nonempty _ _ Hne).
    eexists. split; [reflexivity|].
    intros z Hz.
    replace z with (rate accommodation_rates "hotel" 100
                      (lower (get_field (acc_type a) "hotel"))
                      (lower (get_field (acc_quality a) "medium")) * duration)
      by congruence.
    assert (Hr : 0 <= rate accommodation_rates "hotel" 100
                           (lower (get_field (acc_type a) "hotel"))
                           (lower (get_field (acc_quality a) "medium")) <= 400)
      by (apply (@rate_all_rates Z (fun r => 0 <= r <= 400));
          [apply accommodation_rates_bounded | lia]).
    rewrite Z.abs_mul, (Z.abs_eq (rate _ _ _ _ _)) by lia.
    apply Z.mul_le_mono_nonneg_r; [apply Z.abs_nonneg | lia].
Qed.

Lemma transportation_cost_returns (t : Transportation) :
  (forall z : Z, get_field (tr_distance t) (PyInt 0) = PyInt z -> Z.abs z < 2 ^ 1023) ->
  exists f : float, _estimate_transportation_cost t = Ok (PyFloat f).
Proof.
  intros Hd. destruct (not_transportation t) eqn:Hne.
  - unfold _estimate_transportation_cost. rewrite Hne. now eexists.
  - rewrite (transportation_cost_nonempty _ Hne). now apply mul_float_ok.
Qed.

Lemma activity_loop_returns (l : list Activity) :
  forall f : float,
  exists g : float,
    fold_left (fun total_cost activity =>
                 acc <- total_cost ;; add acc (PyInt (activity_rate activity)))
              l (Ok (PyFloat f)) = Ok (PyFloat g).
Proof.
  induction l as [|a l IH]; intros f; cbn [fold_left bind].
  - now eexists.
  - destruct (@add_float_ok (PyFloat f) (PyInt (activity_rate a))) as [g Hg].
    + discriminate.
    + intros z Hz. injection Hz as Hz. subst z.
      assert (Hr : 0 <= activity_rate a <= 100)
        by (rewrite activity_rate_is_rate;
            apply (@rate_all_rates Z (fun r => 0 <= r <= 100));
            [apply activity_rates_bounded | lia]).
      assert (100 < 2 ^ 1023) by (apply Z.ltb_lt; vm_compute; reflexivity).
      lia.
    + left. now eexists.
    + rewrite Hg. apply IH.
Qed.

Lemma activity_cost_returns (l : list Activity) :
  exists f : float, _estimate_activity_cost l = Ok (PyFloat f).
Proof.
  unfold _estimate_activity_cost. destruct (not_activities l).
  - now eexists.
  - apply activity_loop_returns.
Qed.

Lemma food_cost_returns (destination : string) (duration : Z) :
  Z.abs duration < 2 ^ 1023 ->
  exists f : float, _estimate_food_cost destination duration = Ok (PyFloat f).
Proof.
  intros Hd. unfold _estimate_food_cost.
  destruct daily_food_rates as (H15 & H7 & H10).
  destruct (any _ _); [rewrite H15|destruct (any _ _); [rewrite H7|rewrite H10]];
    cbn [bind]; apply mul_float_ok; intros z Hz; injection Hz as Hz; now subst z.
Qed.

(** X1.  [estimate_budget] returns a breakdown for every plan whose
    duration is below [2^1000] in absolute value and whose distance, when
    it is an integer, is below [2^1023]: no conversion to a double
    overflows. *)
Theorem estimate_budget_returns (p : TravelPlan) :
  Z.abs (plan_duration p) < 2 ^ 1000 ->
  (forall z : Z, plan_distance p = PyInt z -> Z.abs z < 2 ^ 1023) ->
  exists b : BudgetBreakdown, estimate_budget p = Ok b.
Proof.
  intros Hd Hdist. unfold estimate_budget, estimate_budget_with. cbv zeta.
  fold (plan_duration p). set (d := plan_duration p) in *.
  assert (Hpow : 400 * 2 ^ 1000 < 2 ^ 1023) by (apply Z.ltb_lt; vm_compute; reflexivity).
  destruct (accommodation_cost_returns
              (get_field (accommodation p) no_accommodation) d) as (a & Ea & Ha).
  destruct (transportation_cost_returns
              (get_field (transportation p) no_transportation) Hdist) as (t & Et).
  destruct (activity_cost_returns (get_field (activities p) [])) as (v & Ev).
  destruct (@food_cost_returns (get_field (destination p) "") d) as (f & Ef); [lia|].
  rewrite Ea, Et, Ev, Ef. cbn [bind].
  change (_estimate_miscellaneous_cost (get_field (destination p) "") d)
    with (Ok (PyInt (20 * d))).
  cbn [bind set_accommodation set_transportation set_activities set_food
       set_miscellaneous bb_accommodation bb_transportation bb_activities bb_food
       bb_miscellaneous sum fold_left].
  rewrite (add_zero_left (accommodation_cost_shape _ _ Ea)). cbn [bind].
  destruct (@add_float_ok a (PyFloat t)) as [s1 E1];
    [intros z Hz; specialize (Ha z Hz); lia | discriminate | right; now eexists |].
  rewrite E1. cbn [bind].
  destruct (@add_float_ok (PyFloat s1) (PyFloat v)) as [s2 E2];
    [discriminate | discriminate | left; now eexists |].
  rewrite E2. cbn [bind].
  destruct (@add_float_ok (PyFloat s2) (PyFloat f)) as [s3 E3];
    [discriminate | discriminate | left; now eexists |].
  rewrite E3. cbn [bind].
  destruct (@add_float_ok (PyFloat s3) (PyInt (20 * d))) as [s4 E4];
    [discriminate | intros z Hz; replace z with (20 * d) by congruence; lia
    | left; now eexists |].
  rewrite E4. cbn [bind]. now eexists.
Qed.

(** ** Further properties *)

Import Exact.

(** *** Exact arithmetic on integer amounts

    The double of an integer below [2^53] has that integer as its value,
    and sums and products of such doubles that stay below [2^53] are the
    doubles of the integer sums and products: rounding changes nothing. *)

Lemma iter_xO_value (k m : positive) :
  Zpos (Pos.iter xO m k) = Zpos m * 2 ^ Zpos k.
Proof.
  induction k as [|k IH] using Pos.peano_ind.
  - cbn [Pos.iter]. lia.
  - rewrite Pos.iter_succ, Pos2Z.inj_succ, Z.pow_succ_r by lia.
    rewrite Pos2Z.inj_xO, IH. lia.
Qed.

Lemma pow2_xO (p : positive) : 2 ^ Zpos p~0 = 2 ^ Zpos p * 2 ^ Zpos p.
Proof. rewrite <- Z.pow_add_r by lia. f_equal. lia. Qed.

Lemma pow2_xI (p : positive) : 2 ^ Zpos p~1 = 2 * (2 ^ Zpos p * 2 ^ Zpos p).
Proof.
  rewrite <- Z.pow_add_r, <- Z.pow_succ_r by lia. f_equal. lia.
Qed.

(** Shifting out [p] zero bits loses nothing. *)
Lemma iter_shr_1_exact (p : positive) :
  forall m : positive,
    iter_pos shr_1 p (Build_shr_record (Zpos m * 2 ^ Zpos p) false false)
    = Build_shr_record (Zpos m) false false.
Proof.
  induction p as [p IH|p IH|]; intros m; cbn [iter_pos].
  - replace (Zpos m * 2 ^ Zpos p~1) with (Zpos (m * 2 ^ p * 2 ^ p)~0)
      by (rewrite pow2_xI, Pos2Z.inj_xO, !Pos2Z.inj_mul, !Pos2Z.inj_pow; lia).
    cbn [shr_1 orb].
    rewrite Pos2Z.inj_mul, Pos2Z.inj_pow, IH.
    rewrite Pos2Z.inj_mul, Pos2Z.inj_pow, IH. reflexivity.
  - replace (Zpos m * 2 ^ Zpos p~0) with (Zpos (m * 2 ^ p) * 2 ^ Zpos p)
      by (rewrite pow2_xO, Pos2Z.inj_mul, Pos2Z.inj_pow; lia).
    rewrite IH. rewrite Pos2Z.inj_mul, Pos2Z.inj_pow, IH. reflexivity.
  - replace (Zpos m * 2 ^ 1) with (Zpos m~0) by lia. reflexivity.
Qed.

Lemma Zdigits2_shift (m : positive) (n : Z) :
  0 <= n -> Zdigits2 (Zpos m * 2 ^ n) = Zpos (digits2_pos m) + n.
Proof.
  intros Hn. destruct n as [|k|k]; [|clear Hn|lia].
  - rewrite Z.mul_1_r. cbn [Zdigits2]. lia.
  - rewrite <- iter_xO_value. cbn [Zdigits2]. apply digits2_pos_iter_xO.
Qed.

(** A mantissa that is a canonical one followed by [n] zero bits rounds,
    exactly, to the canonical one. *)
Lemma binary_round_aux_exact (s : bool) (M : positive) (n e : Z) :
  0 <= n -> Zpos (digits2_pos M) = 53 -> -1074 <= e + n <= 971 ->
  binary_round_aux prec emax s (Zpos M * 2 ^ n) e loc_Exact = S754_finite s M (e + n).
Proof.
  intros Hn Hd He. unfold binary_round_aux.
  assert (H1 : shr_fexp prec emax (Zpos M * 2 ^ n) e loc_Exact
               = (Build_shr_record (Zpos M) false false, e + n)).
  { unfold shr_fexp. rewrite Zdigits2_shift by exact Hn.
    replace (fexp prec emax (Zpos (digits2_pos M) + n + e) - e) with n
      by (unfold fexp, emin, prec, emax; lia).
    unfold shr, shr_record_of_loc. destruct n as [|p|p]; [|clear Hn|lia].
    - now rewrite Z.mul_1_r, Z.add_0_r.
    - now rewrite iter_shr_1_exact. }
  rewrite H1. cbn [shr_m loc_of_shr_record round_nearest_even].
  assert (H2 : shr_fexp prec emax (Zpos M) (e + n) loc_Exact
               = (Build_shr_record (Zpos M) false false, e + n)).
  { unfold shr_fexp. cbn [Zdigits2].
    replace (fexp prec emax (Zpos (digits2_pos M) + (e + n)) - (e + n)) with 0
      by (unfold fexp, emin, prec, emax; lia).
    reflexivity. }
  rewrite H2. cbn [shr_m].
  replace (e + n <=? emax - prec)%Z with true; [reflexivity|].
  symmetry. apply Z.leb_le. unfold emax, prec. lia.
Qed.

(** The canonical double of a positive integer below [2^53]: its digits
    pushed up to 53 bits. *)
Lemma binary_round_canonical (s : bool) (S v M : positive) (e : Z) :
  e <= 0 -> -1021 <= e ->
  Zpos S = Zpos v * 2 ^ (- e) ->
  Zpos (digits2_pos v) <= 53 ->
  Zpos M = Zpos v * 2 ^ (53 - Zpos (digits2_pos v)) ->
  binary_round prec emax s S e = S754_finite s M (Zpos (digits2_pos v) - 53).
Proof.
  intros He He' HS Hv HM.
  set (dv := Zpos (digits2_pos v)) in *.
  assert (Hdv : 1 <= dv) by (unfold dv; lia).
  assert (HdS : Zpos (digits2_pos S) = dv - e).
  { change (Zpos (digits2_pos S)) with (Zdigits2 (Zpos S)).
    rewrite HS, Zdigits2_shift by lia. fold dv. lia. }
  assert (HdM : Zpos (digits2_pos M) = 53).
  { change (Zpos (digits2_pos M)) with (Zdigits2 (Zpos M)).
    rewrite HM, Zdigits2_shift by lia. fold dv. lia. }
  unfold binary_round. rewrite HdS.
  replace (fexp prec emax (dv - e + e)) with (dv - 53)
    by (unfold fexp, emin, prec, emax; lia).
  unfold shl_align. destruct (dv - 53 - e) as [|k|k] eqn:Hk.
  - (* already at the target exponent *)
    replace (Zpos S) with (Zpos M * 2 ^ 0).
    2:{ rewrite HS, HM, Z.pow_0_r, Z.mul_1_r. f_equal. f_equal. lia. }
    rewrite binary_round_aux_exact by lia. f_equal. lia.
  - (* more digits than needed: the extra ones are zeros *)
    replace (Zpos S) with (Zpos M * 2 ^ Zpos k).
    2:{ rewrite HS, HM, <- Z.mul_assoc, <- Z.pow_add_r by lia. f_equal. f_equal. lia. }
    rewrite binary_round_aux_exact by lia. f_equal. lia.
  - (* fewer digits: shift left *)
    replace (Zpos (Pos.iter xO S k)) with (Zpos M * 2 ^ 0).
    2:{ rewrite iter_xO_value, HS, HM, Z.pow_0_r, Z.mul_1_r.
        rewrite <- Z.mul_assoc, <- Z.pow_add_r by lia. f_equal. f_equal. lia. }
    rewrite binary_round_aux_exact by lia. f_equal. lia.
Qed.

Lemma digits2_pos_bounds (m : positive) :
  2 ^ (Zpos (digits2_pos m) - 1) <= Zpos m < 2 ^ Zpos (digits2_pos m).
Proof.
  rewrite digits2_pos_size. split.
  - pose proof (Pos.size_le m) as H. apply Pos2Z.pos_le_pos in H.
    rewrite Pos2Z.inj_pow in H.
    assert (E : 2 ^ Zpos (Pos.size m) = 2 * 2 ^ (Zpos (Pos.size m) - 1))
      by (rewrite <- Z.pow_succ_r by lia; f_equal; lia).
    lia.
  - pose proof (Pos.size_gt m) as H. apply Pos2Z.pos_lt_pos in H.
    now rewrite Pos2Z.inj_pow in H.
Qed.

(** The double of a positive integer below [2^53]. *)
Lemma Z2SF_pos (v : positive) :
  Zpos v < 2 ^ 53 ->
  exists M : positive,
    Z2SF (Zpos v) = S754_finite false M (Zpos (digits2_pos v) - 53)
    /\ Zpos M = Zpos v * 2 ^ (53 - Zpos (digits2_pos v)).
Proof.
  intros H. apply digits2_pos_le in H.
  assert (Hpos : 0 < Zpos v * 2 ^ (53 - Zpos (digits2_pos v)))
    by (apply Z.mul_pos_pos; [lia | apply Z.pow_pos_nonneg; lia]).
  destruct (Zpos v * 2 ^ (53 - Zpos (digits2_pos v))) as [|M|M] eqn:HM; try lia.
  exists M. split; [|reflexivity].
  unfold Z2SF, binary_normalize.
  apply binary_round_canonical with (v := v); lia.
Qed.

Lemma shl_align_value (M : positive) (e e' : Z) :
  e' <= e -> Zpos (fst (shl_align M e e')) = Zpos M * 2 ^ (e - e').
Proof.
  intros H. unfold shl_align. destruct (e' - e) as [|k|k] eqn:Hk; cbn [fst].
  - replace (e - e') with 0 by lia. lia.
  - lia.
  - rewrite iter_xO_value. f_equal. f_equal. lia.
Qed.

(** Adding the doubles of two non-negative integers whose sum is below
    [2^53] gives the double of the sum: nothing is rounded. *)
Lemma fadd_Z2SF (a b : Z) :
  0 <= a -> 0 <= b -> a + b < 2 ^ 53 ->
  fadd (Z2SF a) (Z2SF b) = Z2SF (a + b).
Proof.
  intros Ha Hb Hab.
  destruct a as [|a|a]; [|clear Ha|lia]; destruct b as [|b|b]; try lia; clear Hb.
  - reflexivity.
  - rewrite Z.add_0_l. destruct (@Z2SF_pos b) as (M & -> & _); [lia|reflexivity].
  - rewrite Z.add_0_r. destruct (@Z2SF_pos a) as (M & -> & _); [lia|reflexivity].
  - destruct (@Z2SF_pos a) as (Ma & Ea & Va); [lia|].
    destruct (@Z2SF_pos b) as (Mb & Eb & Vb); [lia|].
    destruct (@Z2SF_pos (a + b)) as (Mab & Eab & Vab); [lia|].
    change (Zpos a + Zpos b) with (Zpos (a + b)).
    rewrite Ea, Eb, Eab. unfold fadd, SFadd, cond_Zopp, binary_normalize.
    set (ea := Zpos (digits2_pos a) - 53) in *.
    set (eb := Zpos (digits2_pos b) - 53) in *.
    set (ez := Z.min ea eb).
    assert (Hda : Zpos (digits2_pos a) <= 53) by (apply digits2_pos_le; lia).
    assert (Hdb : Zpos (digits2_pos b) <= 53) by (apply digits2_pos_le; lia).
    assert (Hdab : Zpos (digits2_pos (a + b)) <= 53) by (apply digits2_pos_le; lia).
    cbn [Z.add].
    apply binary_round_canonical with (v := (a + b)%positive); try lia.
    rewrite Pos2Z.inj_add, !shl_align_value by lia.
    rewrite Va, Vb, <- !Z.mul_assoc, <- !Z.pow_add_r by lia.
    replace (53 - Zpos (digits2_pos a) + (ea - ez)) with (- ez) by lia.
    replace (53 - Zpos (digits2_pos b) + (eb - ez)) with (- ez) by lia.
    lia.
Qed.

(** Multiplying the doubles of two non-negative integers whose product
    is below [2^53] gives the double of the product. *)
Lemma fmul_Z2SF (a b : Z) :
  0 <= a < 2 ^ 53 -> 0 <= b < 2 ^ 53 -> a * b < 2 ^ 53 ->
  fmul (Z2SF a) (Z2SF b) = Z2SF (a * b).
Proof.
  intros [Ha Ha'] [Hb Hb'] Hab.
  destruct a as [|a|a]; [|clear Ha|lia]; destruct b as [|b|b]; try lia; clear Hb.
  - reflexivity.
  - rewrite Z.mul_0_l. destruct (@Z2SF_pos b) as (M & E & _); [lia|rewrite E; reflexivity].
  - rewrite Z.mul_0_r. destruct (@Z2SF_pos a) as (M & E & _); [lia|rewrite E; reflexivity].
  - change (Zpos a * Zpos b) with (Zpos (a * b)) in *.
    destruct (@Z2SF_pos a) as (Ma & Ea & Va); [lia|].
    destruct (@Z2SF_pos b) as (Mb & Eb & Vb); [lia|].
    destruct (@Z2SF_pos (a * b)) as (Mab & Eab & Vab); [lia|].
    rewrite Ea, Eb, Eab. unfold fmul, SFmul. cbn [xorb].
    pose proof (digits2_pos_bounds a) as Ba.
    pose proof (digits2_pos_bounds b) as Bb.
    pose proof (digits2_pos_bounds (a * b)) as Bab.
    set (da := Zpos (digits2_pos a)) in *.
    set (db := Zpos (digits2_pos b)) in *.
    set (dab := Zpos (digits2_pos (a * b))) in *.
    assert (Hda : 1 <= da) by (unfold da; lia).
    assert (Hdb : 1 <= db) by (unfold db; lia).
    assert (Hdab : dab <= 53) by (apply digits2_pos_le; lia).
    assert (Hlow : da + db - 2 < dab).
    { apply (Z.pow_lt_mono_r_iff 2); [lia| unfold dab; lia|].
      rewrite Pos2Z.inj_mul in Bab.
      replace (da + db - 2) with ((da - 1) + (db - 1)) by lia.
      rewrite Z.pow_add_r by lia. nia. }
    replace (Zpos (Ma * Mb)) with (Zpos Mab * 2 ^ (dab + 53 - da - db)).
    2:{ rewrite Pos2Z.inj_mul, Va, Vb, Vab, Pos2Z.inj_mul.
        fold da db dab.
        replace (Zpos a * 2 ^ (53 - da) * (Zpos b * 2 ^ (53 - db)))
          with (Zpos a * Zpos b * (2 ^ (53 - da) * 2 ^ (53 - db))) by ring.
        rewrite <- Z.mul_assoc, <- !Z.pow_add_r by lia. f_equal. f_equal. lia. }
    rewrite binary_round_aux_exact.
    + f_equal. lia.
    + lia.
    + change (Zpos (digits2_pos Mab)) with (Zdigits2 (Zpos Mab)).
      rewrite Vab, Zdigits2_shift by (fold dab; lia). fold dab. lia.
    + lia.
Qed.

(** *** Activities, exactly *)

Lemma pow_bounds :
  100 * 2 ^ 46 < 2 ^ 53 /\ 2 ^ 53 < 2 ^ 1023 /\ 580 * 2 ^ 40 < 2 ^ 53.
Proof. repeat split; apply Z.ltb_lt; vm_compute; reflexivity. Qed.

Lemma activity_rate_bounds (a : Activity) : 0 <= activity_rate a <= 100.
Proof.
  rewrite activity_rate_is_rate.
  apply (@rate_all_rates Z (fun r => 0 <= r <= 100));
    [apply activity_rates_bounded | lia].
Qed.

Lemma rates_total_bounds (l : list Activity) :
  0 <= rates_total l <= 100 * Z.of_nat (List.length l).
Proof.
  induction l as [|a l IH]; cbn [rates_total fold_right List.length].
  - lia.
  - fold (rates_total l). pose proof (activity_rate_bounds a). lia.
Qed.

Lemma add_Z2SF_int (s r : Z) :
  0 <= s -> 0 <= r -> s + r < 2 ^ 53 ->
  add (PyFloat (Z2SF s)) (PyInt r) = Ok (PyFloat (Z2SF (s + r))).
Proof.
  intros Hs Hr H. destruct pow_bounds as (_ & Hp & _).
  unfold add. cbn [to_float bind].
  rewrite float_of_int_ok by lia. cbn [bind].
  now rewrite fadd_Z2SF.
Qed.

Lemma add_Z2SF_float (s r : Z) :
  0 <= s -> 0 <= r -> s + r < 2 ^ 53 ->
  add (PyFloat (Z2SF s)) (PyFloat (Z2SF r)) = Ok (PyFloat (Z2SF (s + r))).
Proof.
  intros Hs Hr H. unfold add. cbn [to_float bind]. now rewrite fadd_Z2SF.
Qed.

Lemma activity_loop_exact (l : list Activity) :
  forall s : Z,
    0 <= s -> s + rates_total l < 2 ^ 53 ->
    fold_left (fun total_cost activity =>
                 acc <- total_cost ;; add acc (PyInt (activity_rate activity)))
              l (Ok (PyFloat (Z2SF s)))
    = Ok (PyFloat (Z2SF (s + rates_total l))).
Proof.
  induction l as [|a l IH]; intros s Hs H; cbn [fold_left rates_total fold_right bind] in *.
  - now rewrite Z.add_0_r.
  - fold (rates_total l) in *.
    pose proof (activity_rate_bounds a) as Ha.
    pose proof (rates_total_bounds l) as Hl.
    rewrite add_Z2SF_int by lia.
    rewrite IH by lia. do 3 f_equal. lia.
Qed.

Lemma activity_cost_exact (l : list Activity) :
  rates_total l < 2 ^ 53 ->
  _estimate_activity_cost l = Ok (PyFloat (Z2SF (rates_total l))).
Proof.
  intros H. unfold _estimate_activity_cost. destruct l as [|a l]; [reflexivity|].
  cbn [not_activities].
  change (decimal 0 1) with (Z2SF 0). now rewrite activity_loop_exact by lia.
Qed.

(** X4.  For a list of at most [2^46] activities, the activity cost is
    exactly the integer sum of the rates of its activities, written as a
    double: no addition of the loop rounds.  Each activity contributes
    between 0 and 100, so the sum lies between 0 and 100 times the
    length of the list. *)
Theorem activity_cost_is_exact_sum (l : list Activity) :
  Z.of_nat (List.length l) <= 2 ^ 46 ->
  _estimate_activity_cost l = Ok (PyFloat (Z2SF (rates_total l)))
  /\ 0 <= rates_total l <= 100 * Z.of_nat (List.length l).
Proof.
  intros H. pose proof (rates_total_bounds l) as Hb.
  destruct pow_bounds as (Hp & _ & _).
  split; [apply activity_cost_exact; lia | exact Hb].
Qed.

Lemma rates_total_Permutation (l1 l2 : list Activity) :
  Permutation l1 l2 -> rates_total l1 = rates_total l2.
Proof.
  induction 1 as [|x l l' _ IH|x y l|l l' l'' _ IH1 _ IH2];
    unfold rates_total in *; cbn [fold_right]; congruence || lia.
Qed.

(** X5.  The activity cost does not depend on the order of the
    activities: two lists of at most [2^46] activities that are
    permutations of each other cost the same. *)
Theorem activity_cost_ignores_order (l1 l2 : list Activity) :
  Permutation l1 l2 ->
  Z.of_nat (List.length l1) <= 2 ^ 46 ->
  _estimate_activity_cost l1 = _estimate_activity_cost l2.
Proof.
  intros HP H. pose proof (rates_total_bounds l1) as Hb.
  destruct pow_bounds as (Hp & _ & _).
  rewrite !activity_cost_exact; rewrite <- ?(rates_total_Permutation HP); try lia.
  reflexivity.
Qed.

(** *** The whole estimate, exactly *)

Lemma mul_Z2SF_int (k d : Z) :
  0 <= k < 2 ^ 53 -> 0 <= d < 2 ^ 53 -> k * d < 2 ^ 53 ->
  mul (PyFloat (Z2SF k)) (PyInt d) = Ok (PyFloat (Z2SF (k * d))).
Proof.
  intros Hk Hd H. destruct pow_bounds as (_ & Hp & _).
  unfold mul. cbn [to_float bind].
  rewrite float_of_int_ok by lia. cbn [bind].
  now rewrite fmul_Z2SF.
Qed.

Lemma daily_rate_bounds (destination : string) : 0 <= daily_rate destination <= 60.
Proof.
  unfold daily_rate. repeat destruct (any _ _); lia.
Qed.

Lemma food_cost_exact (destination : string) (nights : Z) :
  0 <= nights <= 2 ^ 40 ->
  _estimate_food_cost destination nights
  = Ok (PyFloat (Z2SF (daily_rate destination * nights))).
Proof.
  intros H. destruct pow_bounds as (_ & _ & Hp).
  unfold _estimate_food_cost, daily_rate, expensive_regions, cheap_regions.
  destruct daily_food_rates as (H15 & H7 & H10).
  destruct (any _ _); [rewrite H15|destruct (any _ _); [rewrite H7|rewrite H10]];
    cbn [bind]; apply mul_Z2SF_int; lia.
Qed.

Lemma nightly_rate_bounds (a : Accommodation) : 20 <= nightly_rate a <= 400.
Proof.
  apply (@rate_all_rates Z (fun r => 20 <= r <= 400)); [|lia].
  repeat constructor; simpl; lia.
Qed.

(** X12.  For a plan without transportation (absent or empty record), a
    duration between 0 and [2^40] and at most [2^40] activities,
    [estimate_budget] returns the breakdown computed in integers: the
    accommodation is the nightly rate times the duration, the food 60, 28
    or 40 times the duration, the miscellaneous 20 times the duration,
    and the total is the double of their exact integer sum with the
    activities. *)
Theorem estimate_without_transportation_is_exact (p : TravelPlan) :
  not_transportation (get_field (transportation p) no_transportation) = true ->
  0 <= plan_duration p <= 2 ^ 40 ->
  Z.of_nat (List.length (get_field (activities p) [])) <= 2 ^ 40 ->
  estimate_budget p = Ok (integer_breakdown p).
Proof.
  intros Ht Hd Hl. destruct pow_bounds as (Hp1 & Hp2 & Hp3).
  assert (Hp4 : 2 ^ 40 * 128 < 2 ^ 53) by (apply Z.ltb_lt; vm_compute; reflexivity).
  unfold estimate_budget, estimate_budget_with, integer_breakdown, accommodation_amount. cbv zeta.
  fold (plan_duration p). set (d := plan_duration p) in *.
  set (a := get_field (accommodation p) no_accommodation).
  set (l := get_field (activities p) []) in *.
  pose proof (rates_total_bounds l) as Hs.
  pose proof (nightly_rate_bounds a) as Hr.
  pose proof (daily_rate_bounds (get_field (destination p) "")) as Hk.
  set (k := daily_rate (get_field (destination p) "")) in *.
  unfold _estimate_transportation_cost. rewrite Ht.
  rewrite activity_cost_exact, food_cost_exact by lia. fold k.
  change (_estimate_miscellaneous_cost (get_field (destination p) "") d)
    with (Ok (PyInt (20 * d))).
  change (decimal 0 1) with (Z2SF 0).
  assert (Hkd : 0 <= k * d <= 60 * 2 ^ 40) by nia.
  assert (Hrd : 0 <= nightly_rate a * d <= 400 * 2 ^ 40) by nia.
  destruct (not_accommodation a) eqn:Hne.
  - unfold _estimate_accommodation_cost. rewrite Hne.
    change (decimal 0 1) with (Z2SF 0).
    cbn [bind set_accommodation set_transportation set_activities set_food
         set_miscellaneous set_total bb_accommodation bb_transportation bb_activities
         bb_food bb_miscellaneous sum fold_left].
    change (add (PyInt 0) (PyFloat (Z2SF 0))) with (Ok (PyFloat (Z2SF 0))).
    cbn [bind]. rewrite (@add_Z2SF_float 0 0) by lia. cbn [bind].
    rewrite add_Z2SF_float by lia. cbn [bind].
    rewrite add_Z2SF_float by lia. cbn [bind].
    rewrite add_Z2SF_int by lia. cbn [bind].
    reflexivity.
  - rewrite (accommodation_cost_nonempty _ _ Hne). fold (nightly_rate a).
    cbn [bind set_accommodation set_transportation set_activities set_food
         set_miscellaneous set_total bb_accommodation bb_transportation bb_activities
         bb_food bb_miscellaneous sum fold_left].
    change (add (PyInt 0) (PyInt (nightly_rate a * d)))
      with (Ok (PyInt (0 + nightly_rate a * d))).
    rewrite Z.add_0_l. cbn [bind].
    assert (E : add (PyInt (nightly_rate a * d)) (PyFloat (Z2SF 0))
                = Ok (PyFloat (Z2SF (nightly_rate a * d + 0)))).
    { unfold add. cbn [to_float bind]. rewrite float_of_int_ok by lia. cbn [bind].
      now rewrite fadd_Z2SF by lia. }
    rewrite E. cbn [bind].
    rewrite add_Z2SF_float by lia. cbn [bind].
    rewrite add_Z2SF_float by lia. cbn [bind].
    rewrite add_Z2SF_int by lia. cbn [bind].
    rewrite Z.add_0_r. reflexivity.
Qed.

(** *** Overflow

    An integer of absolute value [2^1024] or more has no double: its
    mantissa keeps at least one digit through the shifts while the
    exponent passes the largest one, so the rounding gives an infinity and
    the conversion raises. *)

Lemma shr_1_digits_lower (mrs : shr_record) :
  0 <= shr_m mrs -> Zdigits2 (shr_m mrs) - 1 <= Zdigits2 (shr_m (shr_1 mrs)).
Proof.
  destruct mrs as [m r s].
  destruct m as [|[p|p|]|[p|p|]]; cbn [shr_1 shr_m Zdigits2 digits2_pos];
    rewrite ?Pos2Z.inj_succ; lia.
Qed.

Lemma iter_shr_1_digits_lower (p : positive) :
  forall mrs : shr_record,
    0 <= shr_m mrs ->
    Zdigits2 (shr_m mrs) - Zpos p <= Zdigits2 (shr_m (iter_pos shr_1 p mrs)).
Proof.
  induction p as [p IH|p IH|]; intros mrs H; simpl iter_pos.
  - pose proof (shr_1_nonneg mrs H) as H1.
    pose proof (shr_1_digits_lower mrs H) as D1.
    pose proof (iter_shr_1_nonneg p _ H1) as H2.
    pose proof (IH _ H1) as D2. pose proof (IH _ H2) as D3. lia.
  - pose proof (iter_shr_1_nonneg p _ H) as H2.
    pose proof (IH _ H) as D2. pose proof (IH _ H2) as D3. lia.
  - apply shr_1_digits_lower, H.
Qed.

Lemma shr_fexp_digits_lower (m e : Z) (l : location) :
  0 <= m -> -1074 <= e ->
  Z.min (Zdigits2 m) 53 <= Zdigits2 (shr_m (fst (shr_fexp prec emax m e l))).
Proof.
  intros H He. unfold shr_fexp, shr.
  assert (H0 : shr_m (shr_record_of_loc m l) = m) by (destruct l as [|[]]; reflexivity).
  destruct (fexp prec emax (Zdigits2 m + e) - e) as [|p|p] eqn:Hn; cbn [fst].
  - rewrite H0. lia.
  - pose proof (iter_shr_1_digits_lower p (shr_record_of_loc m l)) as Hd.
    rewrite H0 in Hd. specialize (Hd H).
    unfold fexp, emin, prec, emax in Hn. lia.
  - rewrite H0. lia.
Qed.

Lemma Zdigits2_round_lower (m : Z) (l : location) :
  0 <= m -> Zdigits2 m <= Zdigits2 (round_nearest_even m l).
Proof.
  intros H.
  assert (Hs : Zdigits2 m <= Zdigits2 (m + 1)).
  { destruct m as [|p|p]; [cbn; lia| |lia].
    replace (Zpos p + 1) with (Zpos (Pos.succ p)) by lia.
    cbn [Zdigits2]. clear H.
    induction p as [p IH|p IH|]; cbn [Pos.succ digits2_pos];
      rewrite ?Pos2Z.inj_succ; lia. }
  destruct l as [|[]]; cbn [round_nearest_even]; try destruct (Z.even m); lia.
Qed.

(** A mantissa that reaches beyond [2^1024] rounds to an infinity. *)
Lemma binary_round_aux_overflow (s : bool) (m e : Z) (l : location) :
  0 < m -> -1074 <= e -> 1025 <= Zdigits2 m + e ->
  binary_round_aux prec emax s m e l = S754_infinity s.
Proof.
  intros H He Hd. unfold binary_round_aux.
  assert (H' : 0 <= m) by lia.
  assert (Hm : 1 <= Zdigits2 m) by (destruct m; cbn [Zdigits2]; lia).
  pose proof (shr_fexp_nonneg e l H') as N1.
  pose proof (@shr_fexp_digits_lower m e l H' He) as L1.
  destruct (shr_fexp_bounds e l H') as [E1 _].
  destruct (shr_fexp prec emax m e l) as [mrs1 e1]. cbn [fst snd] in *.
  assert (He1 : 972 <= e1) by (unfold fexp, emin, prec, emax in E1; lia).
  pose proof (round_nearest_even_nonneg (loc_of_shr_record mrs1) N1) as N2.
  pose proof (Zdigits2_round_lower (loc_of_shr_record mrs1) N1) as R.
  pose proof (@shr_fexp_nonneg _ e1 loc_Exact N2) as N3.
  assert (He1' : -1074 <= e1) by lia.
  pose proof (@shr_fexp_digits_lower _ e1 loc_Exact N2 He1') as L2.
  destruct (shr_fexp_bounds e1 loc_Exact N2) as [E2 _].
  destruct (shr_fexp prec emax _ e1 loc_Exact) as [mrs2 e2]. cbn [fst snd] in *.
  destruct (shr_m mrs2) as [|q|q]; cbn [Zdigits2] in L2; try lia.
  destruct (Z.leb_spec e2 (emax - prec)) as [Hle|Hgt]; [|reflexivity].
  unfold emax, prec in Hle. lia.
Qed.

(** [float(z)] raises as soon as [|z|] reaches [2^1024]. *)
Lemma float_of_int_overflow (z : Z) :
  2 ^ 1024 <= Z.abs z -> float_of_int z = Raise OverflowError.
Proof.
  intros H. unfold float_of_int.
  assert (Hinf : is_infinity (Z2SF z) = true).
  { assert (Hpos : 0 < 2 ^ 1024) by (apply Z.pow_pos_nonneg; lia).
    unfold Z2SF, binary_normalize.
    destruct z as [|m|m]; [cbn [Z.abs] in H; lia| |];
      cbn [Z.abs] in H; pose proof (digits2_pos_bounds m) as B;
      assert (Hd : 1024 < Zpos (digits2_pos m))
        by (apply (Z.pow_lt_mono_r_iff 2); lia);
      unfold binary_round, shl_align;
      (destruct (fexp prec emax (Zpos (digits2_pos m) + 0) - 0) as [|k|k] eqn:Hk;
       [| |unfold fexp, emin, prec, emax in Hk; lia]);
      rewrite binary_round_aux_overflow; cbn [Zdigits2]; try reflexivity; lia. }
  now rewrite Hinf.
Qed.

Lemma to_float_raises (x : num) (e : exception) :
  to_float x = Raise e -> e = OverflowError.
Proof.
  destruct x as [z|f]; cbn [to_float]; [|discriminate].
  unfold float_of_int. destruct (is_infinity _); congruence.
Qed.

Lemma float_path_raises (op : float -> float -> float) (x y : num) (e : exception) :
  (a <- to_float x ;; b <- to_float y ;; Ok (PyFloat (op a b))) = Raise e ->
  e = OverflowError.
Proof.
  destruct (to_float x) as [a|e1] eqn:Ha; cbn [bind].
  - destruct (to_float y) as [b|e2] eqn:Hb; cbn [bind]; [discriminate|].
    intros H. apply (to_float_raises y). congruence.
  - intros H. apply (to_float_raises x). congruence.
Qed.

Lemma mul_raises (x y : num) (e : exception) :
  mul x y = Raise e -> e = OverflowError.
Proof.
  destruct x, y; try apply float_path_raises. discriminate.
Qed.

Lemma transportation_cost_raises (t : Transportation) (e : exception) :
  _estimate_transportation_cost t = Raise e -> e = OverflowError.
Proof.
  unfold _estimate_transportation_cost.
  destruct (not_transportation t); [discriminate|]. cbv zeta. apply mul_raises.
Qed.

Lemma food_cost_overflow (destination : string) (nights : Z) :
  2 ^ 1024 <= Z.abs nights ->
  _estimate_food_cost destination nights = Raise OverflowError.
Proof.
  intros H. unfold _estimate_food_cost.
  destruct daily_food_rates as (H15 & H7 & H10).
  destruct (any _ _); [rewrite H15|destruct (any _ _); [rewrite H7|rewrite H10]];
    cbn [bind]; unfold mul; cbn [to_float bind];
    now rewrite float_of_int_overflow.
Qed.

(** X2.  [estimate_budget] raises [OverflowError] on every plan whose
    duration is [2^1024] or more in absolute value: the food estimate
    multiplies a float by the duration, which cannot be converted. *)
Theorem estimate_budget_overflow (p : TravelPlan) :
  2 ^ 1024 <= Z.abs (plan_duration p) ->
  estimate_budget p = Raise OverflowError.
Proof.
  intros H. unfold estimate_budget, estimate_budget_with. cbv zeta. fold (plan_duration p).
  destruct (accommodation_cost_returns
              (get_field (accommodation p) no_accommodation) (plan_duration p))
    as (a & Ea & _).
  rewrite Ea. cbn [bind].
  destruct (_estimate_transportation_cost _) as [t|e] eqn:Et; cbn [bind].
  - destruct (activity_cost_returns (get_field (activities p) [])) as (v & Ev).
    rewrite Ev. cbn [bind]. now rewrite food_cost_overflow.
  - now rewrite (transportation_cost_raises _ Et).
Qed.

Lemma estimate_budget_overflow_witness :
  estimate_budget (stay_of (2 ^ 1024)) = Raise OverflowError.
Proof.
  apply estimate_budget_overflow. vm_compute. discriminate.
Defined.

Lemma estimate_budget_returns_witness :
  exists b : BudgetBreakdown, estimate_budget paris_plan = Ok b.
Proof.
  apply estimate_budget_returns.
  - vm_compute. reflexivity.
  - intros z Hz. injection Hz as Hz. subst z. vm_compute. reflexivity.
Defined.

(** *** Letter case *)

Lemma get_field_lower (o : option string) (dflt : string) :
  lower dflt = dflt ->
  lower (get_field (option_map lower o) dflt) = lower (get_field o dflt).
Proof.
  intros H. destruct o as [s|]; cbn [option_map get_field];
    [apply lower_idempotent | reflexivity].
Qed.

Lemma is_none_option_map {A B : Type} (f : A -> B) (o : option A) :
  is_none (option_map f o) = is_none o.
Proof. now destruct o. Qed.

Lemma accommodation_cost_lower (a : Accommodation) (nights : Z) :
  _estimate_accommodation_cost (lower_accommodation a) nights
  = _estimate_accommodation_cost a nights.
Proof.
  unfold _estimate_accommodation_cost, not_accommodation, lower_accommodation.
  cbn [acc_type acc_quality]. rewrite !is_none_option_map, !get_field_lower by reflexivity.
  reflexivity.
Qed.

Lemma transportation_cost_lower (t : Transportation) :
  _estimate_transportation_cost (lower_transportation t)
  = _estimate_transportation_cost t.
Proof.
  unfold _estimate_transportation_cost, not_transportation, lower_transportation.
  cbn [tr_type tr_quality tr_distance].
  rewrite !is_none_option_map, !get_field_lower by reflexivity.
  reflexivity.
Qed.

Lemma activity_rate_lower (a : Activity) :
  activity_rate (lower_activity a) = activity_rate a.
Proof.
  unfold activity_rate, lower_activity. cbn [act_type act_quality act_duration].
  rewrite !get_field_lower by reflexivity. reflexivity.
Qed.

Lemma activity_loop_lower (l : list Activity) :
  forall start : outcome num,
    fold_left (fun total_cost activity =>
                 acc <- total_cost ;; add acc (PyInt (activity_rate activity)))
              (map lower_activity l) start
    = fold_left (fun total_cost activity =>
                   acc <- total_cost ;; add acc (PyInt (activity_rate activity)))
                l start.
Proof.
  induction l as [|a l IH]; intros start; cbn [map fold_left]; [reflexivity|].
  now rewrite activity_rate_lower, IH.
Qed.

Lemma activity_cost_lower (l : list Activity) :
  _estimate_activity_cost (map lower_activity l) = _estimate_activity_cost l.
Proof.
  unfold _estimate_activity_cost. destruct l as [|a l]; [reflexivity|].
  cbn [map not_activities]. apply (activity_loop_lower (a :: l)).
Qed.

Lemma food_cost_lower (destination : string) (nights : Z) :
  _estimate_food_cost (lower destination) nights
  = _estimate_food_cost destination nights.
Proof.
  unfold _estimate_food_cost. now rewrite lower_idempotent.
Qed.

Lemma estimate_budget_lower (p : TravelPlan) :
  estimate_budget (lower_plan p) = estimate_budget p.
Proof.
  unfold estimate_budget, estimate_budget_with, lower_plan.
  cbn [destination duration activities accommodation transportation].
  cbv zeta.
  replace (get_field (option_map lower_accommodation (accommodation p)) no_accommodation)
    with (lower_accommodation (get_field (accommodation p) no_accommodation))
    by now destruct (accommodation p).
  replace (get_field (option_map lower_transportation (transportation p))
             no_transportation)
    with (lower_transportation (get_field (transportation p) no_transportation))
    by now destruct (transportation p).
  replace (get_field (option_map (map lower_activity) (activities p)) [])
    with (map lower_activity (get_field (activities p) []))
    by now destruct (activities p).
  replace (get_field (option_map lower (destination p)) "")
    with (lower (get_field (destination p) ""))
    by now destruct (destination p).
  rewrite accommodation_cost_lower, transportation_cost_lower, activity_cost_lower,
    food_cost_lower.
  reflexivity.
Qed.

(** X3.  The estimate ignores the letter case of the destination and of
    every type and quality: two plans that are equal once those texts are
    lower-cased have the same outcome. *)
Theorem estimate_budget_ignores_case (p q : TravelPlan) :
  lower_plan p = lower_plan q -> estimate_budget p = estimate_budget q.
Proof.
  intros H. now rewrite <- (estimate_budget_lower p), H, estimate_budget_lower.
Qed.

Lemma estimate_budget_ignores_case_witness :
  estimate_budget
    {| destination := Some "PARIS, France";
       duration := Some 7;
       accommodation :=
         Some {| acc_type := Some "Hotel"; acc_quality := Some "MEDIUM" |};
       transportation :=
         Some {| tr_type := Some "FLIGHT"; tr_distance := Some (PyInt 3600);
                 tr_quality := Some "Economy" |};
       activities :=
         Some [ {| act_type := Some "Museum"; act_duration := None;
                   act_quality := Some "standard" |};
                {| act_type := Some "SightSeeing"; act_duration := None;
                   act_quality := Some "STANDARD" |};
                {| act_type := Some "dining"; act_duration := None;
                   act_quality := Some "Premium" |} ] |}
  = estimate_budget paris_plan.
Proof.
  apply estimate_budget_ignores_case. reflexivity.
Defined.

(** *** Refinement, both ways *)

Lemma Substring_append (w pre post : string) : Substring w (pre ++ w ++ post).
Proof. now exists pre, post. Qed.

Lemma append_assoc (a b c : string) : (a ++ b) ++ c = a ++ b ++ c.
Proof. induction a as [|x a IH]; cbn; [reflexivity | now rewrite IH]. Qed.

Section RefineMore.
Variable J : Type.
Variable call_llm : string -> outcome string.
Variable json_loads : string -> outcome J.
Variable json_text_plan : TravelPlan -> string.
Variable json_text_budget : BudgetBreakdown -> string.

(** X6.  [refine_budget_with_llm] ends in one of three ways, told apart
    by its arguments and by what the model and [json.loads] do.  When the
    plan or the initial budget holds an integer that [json.dumps] cannot
    write, the [ValueError] raised while the prompt is built reaches the
    caller and nothing is printed.  Otherwise, when the model answers and
    [json.loads] accepts the answer, the parsed object is returned as it
    is, with no check of its shape, and nothing is printed; and when one
    of the two raises, exactly one line is printed, with the text of the
    exception, and the initial budget is returned. *)
Theorem refine_ends_in_one_of_three_ways (p : TravelPlan) (b : BudgetBreakdown) :
  ((plan_writable p && budget_writable b)%bool = false
   /\ refine_budget_with_llm call_llm json_loads json_text_plan
        json_text_budget p b
      = ([], Raise int_str_error))
  \/ ((plan_writable p && budget_writable b)%bool = true
      /\ exists (text : string) (j : J),
          call_llm (refinement_prompt (json_text_plan p) (json_text_budget b))
          = Ok text
          /\ json_loads text = Ok j
          /\ refine_budget_with_llm call_llm json_loads json_text_plan
               json_text_budget p b
             = ([], Ok (Refined j)))
  \/ ((plan_writable p && budget_writable b)%bool = true
      /\ exists e : exception,
          (call_llm (refinement_prompt (json_text_plan p) (json_text_budget b))
           = Raise e
           \/ exists text : string,
               call_llm (refinement_prompt (json_text_plan p) (json_text_budget b))
               = Ok text
               /\ json_loads text = Raise e)
          /\ refine_budget_with_llm call_llm json_loads json_text_plan
               json_text_budget p b
             = (["Error refining budget with LLM: " ++ exc_str e],
                Ok (Unrefined b))).
Proof.
  destruct (plan_writable p) eqn:Hp; [destruct (budget_writable b) eqn:Hb|].
  - right. rewrite refine_with_prompt by assumption.
    destruct (call_llm _) as [text|e] eqn:Hc; cbn [bind].
    + destruct (json_loads text) as [j|e] eqn:Hl; cbn [bind].
      * left. split; [reflexivity|]. exists text, j. repeat split; trivial.
      * right. split; [reflexivity|]. exists e.
        split; [right; now exists text | reflexivity].
    + right. split; [reflexivity|]. exists e. split; [now left | reflexivity].
  - left. split; [reflexivity|]. apply refine_dumps_raises. now right.
  - left. split; [reflexivity|]. apply refine_dumps_raises. now left.
Qed.
End RefineMore.

(** The prompt contains the two texts it is built from. *)
Lemma refinement_prompt_embeds (plan_text budget_text : string) :
  Substring plan_text (refinement_prompt plan_text budget_text)
  /\ Substring budget_text (refinement_prompt plan_text budget_text).
Proof.
  unfold refinement_prompt. split.
  - apply Substring_append.
  - rewrite <- !append_assoc. rewrite append_assoc. apply Substring_append.
Qed.

(** X7.  For a plan and an initial budget that [json.dumps] can write,
    [refine_budget_with_llm] calls the model on one prompt, which contains
    the serialized travel plan and the serialized initial budget: a model
    that echoes what it is sent, read back as it is, makes the function
    return that prompt; and two models that give the same answer to that
    prompt make the function print and return the same, whatever they
    answer to other prompts. *)
Theorem llm_is_sent_plan_and_budget
  (json_text_plan : TravelPlan -> string)
  (json_text_budget : BudgetBreakdown -> string)
  (p : TravelPlan) (b : BudgetBreakdown) :
  plan_writable p = true ->
  budget_writable b = true ->
  exists prompt : string,
    Substring (json_text_plan p) prompt
    /\ Substring (json_text_budget b) prompt
    /\ refine_budget_with_llm (fun sent => Ok sent) (fun text => Ok text)
         json_text_plan json_text_budget p b
       = ([], Ok (Refined prompt))
    /\ (forall (J : Type) (call_llm1 call_llm2 : string -> outcome string)
               (json_loads : string -> outcome J),
           call_llm1 prompt = call_llm2 prompt ->
           refine_budget_with_llm call_llm1 json_loads json_text_plan
             json_text_budget p b
           = refine_budget_with_llm call_llm2 json_loads json_text_plan
               json_text_budget p b).
Proof.
  intros Hp Hb.
  exists (refinement_prompt (json_text_plan p) (json_text_budget b)).
  destruct (refinement_prompt_embeds (json_text_plan p) (json_text_budget b))
    as [H1 H2].
  repeat split; trivial.
  - now rewrite refine_with_prompt by assumption.
  - intros J call_llm1 call_llm2 json_loads H.
    rewrite !refine_with_prompt by assumption. now rewrite H.
Qed.

Lemma llm_is_sent_plan_and_budget_witness :
  exists prompt : string,
    Substring "{duration: 7}" prompt
    /\ Substring "{total: 1775.0}" prompt
    /\ refine_budget_with_llm (fun sent => Ok sent) (fun text => Ok text)
         (fun _ => "{duration: 7}") (fun _ => "{total: 1775.0}")
         paris_plan paris_budget
       = ([], Ok (Refined prompt))
    /\ (forall (J : Type) (call_llm1 call_llm2 : string -> outcome string)
               (json_loads : string -> outcome J),
           call_llm1 prompt = call_llm2 prompt ->
           refine_budget_with_llm call_llm1 json_loads
             (fun _ => "{duration: 7}") (fun _ => "{total: 1775.0}")
             paris_plan paris_budget
           = refine_budget_with_llm call_llm2 json_loads
               (fun _ => "{duration: 7}") (fun _ => "{total: 1775.0}")
               paris_plan paris_budget).
Proof.
  apply (llm_is_sent_plan_and_budget
           (fun _ => "{duration: 7}") (fun _ => "{total: 1775.0}")
           paris_plan paris_budget).
  - vm_compute. reflexivity.
  - vm_compute. reflexivity.
Defined.

(** *** Bounds on the accommodation cost *)

(** X8.  Whatever the type and quality texts of a non-empty accommodation
    record, known or not, the cost of a stay of [nights >= 0] is an
    integer between [20 * nights] and [400 * nights]. *)
Theorem accommodation_cost_within_rate_bounds (a : Accommodation) (nights : Z) :
  not_accommodation a = false -> 0 <= nights ->
  exists z : Z,
    _estimate_accommodation_cost a nights = Ok (PyInt z)
    /\ 20 * nights <= z <= 400 * nights.
Proof.
  intros Hne Hn. rewrite (accommodation_cost_nonempty _ _ Hne).
  fold (nightly_rate a). pose proof (nightly_rate_bounds a) as Hr.
  eexists. split; [reflexivity | nia].
Qed.

Lemma accommodation_cost_within_rate_bounds_witness :
  exists z : Z,
    _estimate_accommodation_cost
      {| acc_type := Some "Treehouse"; acc_quality := None |} 3 = Ok (PyInt z)
    /\ 20 * 3 <= z <= 400 * 3.
Proof.
  apply accommodation_cost_within_rate_bounds; [reflexivity | lia].
Defined.

(** *** Keywords inside words *)

Lemma lower_append (a b : string) : lower (a ++ b) = lower a ++ lower b.
Proof. induction a as [|x a IH]; cbn; [reflexivity | now rewrite IH]. Qed.

(** X9.  A destination that contains a keyword of the first group
    anywhere, in any letter case and even inside a longer word, gets the
    factor 1.5: the test is on substrings, not on words. *)
Theorem keyword_anywhere_makes_expensive (pre w post : string) (nights : Z) :
  In (lower w) expensive_regions ->
  _estimate_food_cost (pre ++ w ++ post) nights = food_formula (decimal 15 1) nights.
Proof.
  intros H. unfold _estimate_food_cost, food_formula.
  assert (Hm : any (fun word => contains word (lower (pre ++ w ++ post)))
                   ["europe"; "usa"; "canada"; "australia"] = true).
  { apply any_contains_iff_mentions. exists (lower w). split; [exact H|].
    rewrite !lower_append. apply Substring_append. }
  now rewrite Hm.
Qed.

Lemma keyword_anywhere_makes_expensive_witness :
  _estimate_food_cost "Busan, South Korea" 5 = food_formula (decimal 15 1) 5.
Proof.
  apply (keyword_anywhere_makes_expensive "B" "usa" "n, South Korea").
  cbn. auto.
Defined.

(** *** Zero nights, no distance *)

(** X10.  In the breakdown of a plan of zero nights (or without a
    duration), whatever its destination and accommodation, the
    accommodation amount equals 0, the food amount is [0.0] and the
    miscellaneous amount is 0. *)
Theorem zero_nights_cost_nothing_per_night (p : TravelPlan) (b : BudgetBreakdown) :
  plan_duration p = 0 ->
  estimate_budget p = Ok b ->
  eq (bb_accommodation b) (PyInt 0) = true
  /\ bb_food b = PyFloat (S754_zero false)
  /\ bb_miscellaneous b = PyInt 0.
Proof.
  intros Hd H. apply estimate_budget_inv in H.
  destruct H as (Ha & _ & _ & Hf & Hm & _). rewrite Hd in *.
  repeat split.
  - unfold _estimate_accommodation_cost in Ha.
    destruct (not_accommodation _); cbv zeta in Ha.
    + replace (bb_accommodation b) with (PyFloat (decimal 0 1)) by congruence.
      reflexivity.
    + unfold mul in Ha. rewrite Z.mul_0_r in Ha.
      replace (bb_accommodation b) with (PyInt 0) by congruence. reflexivity.
  - unfold _estimate_food_cost in Hf.
    destruct daily_food_rates as (H15 & H7 & H10).
    assert (E : Ok (bb_food b) = Ok (PyFloat (S754_zero false))).
    { rewrite <- Hf.
      destruct (any _ _); [rewrite H15|destruct (any _ _); [rewrite H7|rewrite H10]];
        reflexivity. }
    congruence.
  - assert (E : Ok (bb_miscellaneous b) = Ok (PyInt 0))
      by (rewrite <- Hm; reflexivity).
    congruence.
Qed.

Lemma zero_nights_cost_nothing_per_night_witness :
  eq (PyInt 0) (PyInt 0) = true
  /\ PyFloat (S754_zero false) = PyFloat (S754_zero false)
  /\ PyInt 0 = PyInt 0.
Proof.
  apply (@zero_nights_cost_nothing_per_night
           {| destination := Some "Rome, Europe"; duration := Some 0;
              activities := None;
              accommodation :=
                Some {| acc_type := Some "resort"; acc_quality := Some "luxury" |};
              transportation := None |}
           {| bb_accommodation := PyInt 0;
              bb_transportation := PyFloat (S754_zero false);
              bb_activities := PyFloat (S754_zero false);
              bb_food := PyFloat (S754_zero false);
              bb_miscellaneous := PyInt 0;
              bb_total := PyFloat (S754_zero false) |}).
  - reflexivity.
  - vm_compute. reflexivity.
Defined.

(** X11.  A transportation record without a distance, or with the
    distance 0, costs [0.0] whatever its type and quality. *)
Theorem no_distance_no_transportation_cost (t : Transportation) :
  get_field (tr_distance t) (PyInt 0) = PyInt 0 ->
  _estimate_transportation_cost t = Ok (PyFloat (S754_zero false)).
Proof.
  intros Hd. destruct (not_transportation t) eqn:Hne.
  - unfold _estimate_transportation_cost. now rewrite Hne.
  - rewrite (transportation_cost_nonempty _ Hne), Hd.
    assert (Hr : positive_finite
                   (rate transportation_rates "flight" (decimal 15 2)
                      (lower (get_field (tr_type t) "flight"))
                      (lower (get_field (tr_quality t) "economy"))))
      by (apply rate_all_rates; [apply transportation_rates_positive | vm_compute; eauto]).
    destruct Hr as (m & e & ->). reflexivity.
Qed.

Lemma no_distance_no_transportation_cost_witness :
  _estimate_transportation_cost
    {| tr_type := Some "car"; tr_distance := None; tr_quality := Some "first" |}
  = Ok (PyFloat (S754_zero false)).
Proof.
  apply no_distance_no_transportation_cost. reflexivity.
Defined.

(** *** Price lookup *)

(** X13.  For every destination and accommodation type, [scrape_prices]
    has a price for exactly the qualities that the rate table of any
    known accommodation type has a rate for. *)
Theorem scrape_prices_cover_the_quality_tiers
  (destination accommodation_type type quality : string) (table : dict Z) :
  lookup accommodation_rates type = Some table ->
  (lookup (scrape_prices destination accommodation_type) quality = None
   <-> lookup table quality = None).
Proof.
  unfold accommodation_rates, scrape_prices. cbn [lookup].
  repeat (destruct (String.eqb _ type); [intros H; injection H as <-|]);
    try discriminate;
    cbn [lookup]; repeat destruct (String.eqb _ quality); split; congruence.
Qed.

Lemma scrape_prices_cover_the_quality_tiers_witness :
  lookup (scrape_prices "Paris, France" "hotel") "palatial" = None
  <-> lookup [("budget", 20); ("medium", 30); ("luxury", 50)] "palatial" = None.
Proof.
  apply (@scrape_prices_cover_the_quality_tiers "Paris, France" "hotel" "hostel").
  reflexivity.
Defined.

Lemma activity_cost_is_exact_sum_witness :
  _estimate_activity_cost (get_field (activities paris_plan) [])
  = Ok (PyFloat (Z2SF (rates_total (get_field (activities paris_plan) []))))
  /\ 0 <= rates_total (get_field (activities paris_plan) [])
     <= 100 * Z.of_nat (List.length (get_field (activities paris_plan) [])).
Proof.
  apply activity_cost_is_exact_sum. vm_compute. discriminate.
Defined.

Lemma activity_cost_ignores_order_witness :
  _estimate_activity_cost
    [ {| act_type := Some "museum"; act_duration := None; act_quality := None |};
      {| act_type := Some "dining"; act_duration := None;
         act_quality := Some "premium" |} ]
  = _estimate_activity_cost
      [ {| act_type := Some "dining"; act_duration := None;
           act_quality := Some "premium" |};
        {| act_type := Some "museum"; act_duration := None; act_quality := None |} ].
Proof.
  apply activity_cost_ignores_order.
  - apply perm_swap.
  - vm_compute. discriminate.
Defined.

Lemma estimate_without_transportation_is_exact_witness :
  estimate_budget
    {| destination := Some "Nairobi, Africa";
       duration := Some 4;
       activities := activities paris_plan;
       accommodation := Some {| acc_type := Some "hostel"; acc_quality := None |};
       transportation := None |}
  = Ok {| bb_accommodation := PyInt 120;
          bb_transportation := PyFloat (S754_zero false);
          bb_activities := PyFloat (Z2SF 115);
          bb_food := PyFloat (Z2SF 112);
          bb_miscellaneous := PyInt 80;
          bb_total := PyFloat (Z2SF 427) |}.
Proof.
  apply (@estimate_without_transportation_is_exact
           {| destination := Some "Nairobi, Africa";
              duration := Some 4;
              activities := activities paris_plan;
              accommodation :=
                Some {| acc_type := Some "hostel"; acc_quality := None |};
              transportation := None |}).
  - reflexivity.
  - vm_compute. split; discriminate.
  - vm_compute. discriminate.
Defined.
